(** * Slack export utilities ([src/utils.py]): a shallow embedding and its properties

    The Python module flattens exported chat messages into a table of
    columns, extracts thread replies, aggregates per-user counts, resolves
    user identifiers to display names and formats epoch timestamps.

    Python values that come out of [json.load] are modelled by the type
    [json]; exceptions are modelled by an error monad, so that "raises" and
    "returns" are both visible in the result of a function. *)

From Stdlib Require Import ZArith List String Ascii Bool Lia Permutation Sorted.
From Stdlib Require Import DecimalString.
Import ListNotations.
Local Open Scope string_scope.
Local Open Scope list_scope.
Local Open Scope Z_scope.

(** ** Python values and exceptions *)

(** The values [json.load] produces.  [JNull] is Python's [None].  Numbers
    are integers: no function below computes with a fractional number. *)
#[warnings="-register-all"]
Inductive json : Type :=
| JNull
| JBool (b : bool)
| JNum (z : Z)
| JStr (s : string)
| JList (l : list json)
| JDict (d : list (string * json)).

(** The exceptions the functions below can raise.  [TimestampError] stands
    for what [datetime.fromtimestamp] raises on an instant it cannot
    convert: [ValueError] for a year outside 1..9999, [OverflowError] or
    [OSError] beyond the reach of the platform's C library. *)
Inductive exn : Type :=
| KeyError (k : string)
| TypeError
| IndexError
| ValueError
| TimestampError.

Inductive result (A : Type) : Type :=
| Ok (a : A)
| Err (e : exn).
Arguments Ok {A} a.
Arguments Err {A} e.

Definition bind {A B : Type} (m : result A) (k : A -> result B) : result B :=
  match m with
  | Ok a => k a
  | Err e => Err e
  end.

Notation "x <- m ;; k" := (bind m (fun x => k))
  (at level 61, m at next level, right associativity).

(** [try: m except: d] with a bare [except], which catches everything. *)
Definition try_except {A : Type} (m : result A) (d : A) : A :=
  match m with
  | Ok a => a
  | Err _ => d
  end.

(** A [for] loop whose body updates the loop's mutable state and may raise. *)
Fixpoint for_each {S A : Type} (body : S -> A -> result S) (xs : list A) (s : S)
  : result S :=
  match xs with
  | [] => Ok s
  | x :: xs' => s' <- body s x ;; for_each body xs' s'
  end.

(** *** Dictionaries as association lists

    A Python [dict] keeps its keys in insertion order; it is an association
    list read at the first match. *)
Fixpoint assoc (k : string) (d : list (string * json)) : option json :=
  match d with
  | [] => None
  | (k', v) :: d' => if String.eqb k k' then Some v else assoc k d'
  end.

Definition has_key (k : string) (d : list (string * json)) : bool :=
  match assoc k d with
  | Some _ => true
  | None => false
  end.

(** [d[k] = v]: an existing key keeps its position, a new key goes last. *)
Fixpoint dict_set (k : string) (v : json) (d : list (string * json))
  : list (string * json) :=
  match d with
  | [] => [(k, v)]
  | (k', v') :: d' =>
      if String.eqb k k' then (k', v) :: d' else (k', v') :: dict_set k v d'
  end.

(** *** The operators the module uses on values *)

(** [v == s] for a string literal [s]. *)
Definition py_eq_str (v : json) (s : string) : bool :=
  match v with
  | JStr s' => String.eqb s' s
  | _ => false
  end.

Fixpoint is_substring (k s : string) : bool :=
  prefix k s ||
  match s with
  | EmptyString => false
  | String _ s' => is_substring k s'
  end.

(** [k in v] for a string literal [k]: key membership on a dict, element
    membership on a list, substring on a string, [TypeError] otherwise. *)
Definition py_contains (k : string) (v : json) : result bool :=
  match v with
  | JDict d => Ok (has_key k d)
  | JList l => Ok (existsb (fun x => py_eq_str x k) l)
  | JStr s => Ok (is_substring k s)
  | _ => Err TypeError
  end.

(** [v[k]] for a string literal [k]: only a dict can be indexed by a string. *)
Definition py_getitem (v : json) (k : string) : result json :=
  match v with
  | JDict d =>
      match assoc k d with
      | Some x => Ok x
      | None => Err (KeyError k)
      end
  | _ => Err TypeError
  end.

Fixpoint chars (s : string) : list json :=
  match s with
  | EmptyString => []
  | String c s' => JStr (String c EmptyString) :: chars s'
  end.

(** What [for x in v] iterates over: the elements of a list, the keys of a
    dict, the characters of a string; anything else is not iterable. *)
Definition py_iter (v : json) : result (list json) :=
  match v with
  | JList l => Ok l
  | JDict d => Ok (map (fun kv => JStr (fst kv)) d)
  | JStr s => Ok (chars s)
  | _ => Err TypeError
  end.

(** ** [get_messages_dict] *)

(** The dictionary of twelve column lists the function builds. *)
Record msg_table : Type := MkTable {
  msg_id : list json;
  text : list json;
  attachments : list json;
  user : list json;
  mentions : list json;
  emojis : list json;
  reactions : list json;
  replies : list json;
  replies_to : list json;
  ts : list json;
  links : list json;
  link_count : list json
}.

Definition empty_table : msg_table :=
  MkTable [] [] [] [] [] [] [] [] [] [] [] [].

(** [msg_list[col].append(v)], one definition per column. *)
Definition append_msg_id (v : json) (t : msg_table) : msg_table :=
  MkTable (msg_id t ++ [v]) (text t) (attachments t) (user t) (mentions t)
    (emojis t) (reactions t) (replies t) (replies_to t) (ts t) (links t)
    (link_count t).
Definition append_text (v : json) (t : msg_table) : msg_table :=
  MkTable (msg_id t) (text t ++ [v]) (attachments t) (user t) (mentions t)
    (emojis t) (reactions t) (replies t) (replies_to t) (ts t) (links t)
    (link_count t).
Definition append_user (v : json) (t : msg_table) : msg_table :=
  MkTable (msg_id t) (text t) (attachments t) (user t ++ [v]) (mentions t)
    (emojis t) (reactions t) (replies t) (replies_to t) (ts t) (links t)
    (link_count t).
Definition append_mentions (v : json) (t : msg_table) : msg_table :=
  MkTable (msg_id t) (text t) (attachments t) (user t) (mentions t ++ [v])
    (emojis t) (reactions t) (replies t) (replies_to t) (ts t) (links t)
    (link_count t).
Definition append_emojis (v : json) (t : msg_table) : msg_table :=
  MkTable (msg_id t) (text t) (attachments t) (user t) (mentions t)
    (emojis t ++ [v]) (reactions t) (replies t) (replies_to t) (ts t) (links t)
    (link_count t).
Definition append_reactions (v : json) (t : msg_table) : msg_table :=
  MkTable (msg_id t) (text t) (attachments t) (user t) (mentions t)
    (emojis t) (reactions t ++ [v]) (replies t) (replies_to t) (ts t) (links t)
    (link_count t).
Definition append_replies (v : json) (t : msg_table) : msg_table :=
  MkTable (msg_id t) (text t) (attachments t) (user t) (mentions t)
    (emojis t) (reactions t) (replies t ++ [v]) (replies_to t) (ts t) (links t)
    (link_count t).
Definition append_replies_to (v : json) (t : msg_table) : msg_table :=
  MkTable (msg_id t) (text t) (attachments t) (user t) (mentions t)
    (emojis t) (reactions t) (replies t) (replies_to t ++ [v]) (ts t) (links t)
    (link_count t).
Definition append_ts (v : json) (t : msg_table) : msg_table :=
  MkTable (msg_id t) (text t) (attachments t) (user t) (mentions t)
    (emojis t) (reactions t) (replies t) (replies_to t) (ts t ++ [v]) (links t)
    (link_count t).
Definition append_links (v : json) (t : msg_table) : msg_table :=
  MkTable (msg_id t) (text t) (attachments t) (user t) (mentions t)
    (emojis t) (reactions t) (replies t) (replies_to t) (ts t) (links t ++ [v])
    (link_count t).
Definition append_link_count (v : json) (t : msg_table) : msg_table :=
  MkTable (msg_id t) (text t) (attachments t) (user t) (mentions t)
    (emojis t) (reactions t) (replies t) (replies_to t) (ts t) (links t)
    (link_count t ++ [v]).

(** The four accumulators of the walk over [msg["blocks"]]. *)
Record walk_acc : Type := MkAcc {
  emoji_list : list json;
  mention_list : list json;
  walk_link_count : Z;
  walk_links : list json
}.

Definition walk_init : walk_acc := MkAcc [] [] 0 [].

(** The body of the innermost loop, lines 139-148: classify one
    sub-element by its type tag. *)
Definition classify (a : walk_acc) (elm_ : json) : result walk_acc :=
  tagged <- py_contains "type" elm_ ;;
  if tagged : bool then
    t1 <- py_getitem elm_ "type" ;;
    a1 <- (if py_eq_str t1 "emoji"
           then name <- py_getitem elm_ "name" ;;
                Ok (MkAcc (emoji_list a ++ [name]) (mention_list a)
                      (walk_link_count a) (walk_links a))
           else Ok a) ;;
    t2 <- py_getitem elm_ "type" ;;
    a2 <- (if py_eq_str t2 "user"
           then uid <- py_getitem elm_ "user_id" ;;
                Ok (MkAcc (emoji_list a1) (mention_list a1 ++ [uid])
                      (walk_link_count a1) (walk_links a1))
           else Ok a1) ;;
    t3 <- py_getitem elm_ "type" ;;
    if py_eq_str t3 "link"
    then url <- py_getitem elm_ "url" ;;
         Ok (MkAcc (emoji_list a2) (mention_list a2)
               (walk_link_count a2 + 1) (walk_links a2 ++ [url]))
    else Ok a2
  else Ok a.

(** The middle loop, lines 135-137. *)
Definition walk_element (a : walk_acc) (elm : json) : result walk_acc :=
  nested <- py_contains "elements" elm ;;
  if nested : bool then
    sub <- py_getitem elm "elements" ;;
    subs <- py_iter sub ;;
    for_each classify subs a
  else Ok a.

(** The outer loop, lines 133-134. *)
Definition walk_block (a : walk_acc) (blk : json) : result walk_acc :=
  nested <- py_contains "elements" blk ;;
  if nested : bool then
    els <- py_getitem blk "elements" ;;
    elms <- py_iter els ;;
    for_each walk_element elms a
  else Ok a.

(** One iteration of the loop over the messages, lines 102-159. *)
Definition process_message (t : msg_table) (msg : json) : result msg_table :=
  sub <- py_contains "subtype" msg ;;
  if sub : bool then Ok t
  else
    let t := append_msg_id (try_except (py_getitem msg "client_msg_id") JNull) t in
    v <- py_getitem msg "text" ;;
    let t := append_text v t in
    v <- py_getitem msg "user" ;;
    let t := append_user v t in
    v <- py_getitem msg "ts" ;;
    let t := append_ts v t in
    c <- py_contains "reactions" msg ;;
    t <- (if c : bool
          then v <- py_getitem msg "reactions" ;; Ok (append_reactions v t)
          else Ok (append_reactions JNull t)) ;;
    c <- py_contains "parent_user_id" msg ;;
    t <- (if c : bool
          then v <- py_getitem msg "ts" ;; Ok (append_replies_to v t)
          else Ok (append_replies_to JNull t)) ;;
    c1 <- py_contains "thread_ts" msg ;;
    c <- (if c1 : bool then py_contains "reply_users" msg else Ok false) ;;
    t <- (if c : bool
          then v <- py_getitem msg "replies" ;; Ok (append_replies v t)
          else Ok (append_replies JNull t)) ;;
    c <- py_contains "blocks" msg ;;
    if c : bool then
      bs <- py_getitem msg "blocks" ;;
      blks <- py_iter bs ;;
      a <- for_each walk_block blks walk_init ;;
      let t := append_emojis (JList (emoji_list a)) t in
      let t := append_mentions (JList (mention_list a)) t in
      let t := append_links (JList (walk_links a)) t in
      Ok (append_link_count (JNum (walk_link_count a)) t)
    else
      let t := append_emojis JNull t in
      let t := append_mentions JNull t in
      let t := append_links JNull t in
      Ok (append_link_count (JNum 0) t).

Definition get_messages_dict (msgs : list json) : result msg_table :=
  for_each process_message msgs empty_table.

(** ** [from_msg_get_replies] *)

(** [v[k] = x] for a string literal [k]: only a dict accepts it. *)
Definition py_setitem (v : json) (k : string) (x : json) : result json :=
  match v with
  | JDict d => Ok (JDict (dict_set k x d))
  | _ => Err TypeError
  end.

(** A [for] loop inside [try: ... except: pass], over state that lives
    outside the [try]: what the iterations before the exception did to the
    state stays. *)
Fixpoint for_each_try {S A : Type} (body : S -> A -> result S) (xs : list A)
  (s : S) : S :=
  match xs with
  | [] => s
  | x :: xs' =>
      match body s x with
      | Ok s' => for_each_try body xs' s'
      | Err _ => s
      end
  end.

(** The loop body, lines 183-185.  The reply is updated in place in the
    source; the list returned holds the updated replies, which is what the
    model computes. *)
Definition tag_reply (msg : json) (replies : list json) (reply : json)
  : result (list json) :=
  th <- py_getitem msg "thread_ts" ;;
  reply <- py_setitem reply "thread_ts" th ;;
  mid <- py_getitem msg "client_msg_id" ;;
  reply <- py_setitem reply "message_id" mid ;;
  Ok (replies ++ [reply]).

Definition from_msg_get_replies (msg : json) : result (list json) :=
  let replies := [] in
  c1 <- py_contains "thread_ts" msg ;;
  c <- (if c1 : bool then py_contains "replies" msg else Ok false) ;;
  if c : bool then
    match (r <- py_getitem msg "replies" ;; py_iter r) with
    | Ok items => Ok (for_each_try (tag_reply msg) items replies)
    | Err _ => Ok replies
    end
  else Ok replies.

(** ** [get_msgs_df_info]: the two [Counter] aggregations *)

(** Lists and dicts cannot be hashed, hence cannot be dict keys. *)
Definition hashable (v : json) : bool :=
  match v with
  | JList _ | JDict _ => false
  | _ => true
  end.

(** Equality of dict keys: [True == 1] and [False == 0] in Python. *)
Definition key_eqb (a b : json) : bool :=
  match a, b with
  | JNull, JNull => true
  | JStr s, JStr s' => String.eqb s s'
  | JBool x, JBool y => Bool.eqb x y
  | JNum x, JNum y => x =? y
  | JBool x, JNum y | JNum y, JBool x => y =? (if x then 1 else 0)
  | _, _ => false
  end.

(** A Python dict with arbitrary hashable keys, in insertion order. *)
Definition pydict (V : Type) : Type := list (json * V).

Fixpoint pd_get {V : Type} (k : json) (d : pydict V) : option V :=
  match d with
  | [] => None
  | (k', v) :: d' => if key_eqb k k' then Some v else pd_get k d'
  end.

Fixpoint pd_set {V : Type} (k : json) (v : V) (d : pydict V) : pydict V :=
  match d with
  | [] => [(k, v)]
  | (k', v') :: d' =>
      if key_eqb k k' then (k', v) :: d' else (k', v') :: pd_set k v d'
  end.

Definition pd_setitem {V : Type} (k : json) (v : V) (d : pydict V)
  : result (pydict V) :=
  if hashable k then Ok (pd_set k v d) else Err TypeError.

(** [Counter(xs)]: [c[x] = c.get(x, 0) + 1] for each element in turn. *)
Definition count_element (c : pydict Z) (x : json) : result (pydict Z) :=
  pd_setitem x (match pd_get x c with Some n => n | None => 0 end + 1) c.

Definition Counter (xs : list json) : result (pydict Z) :=
  for_each count_element xs [].

(** [[u for r in col if r != None for u in r]] *)
Definition flatten_non_null (col : list json) : result (list json) :=
  for_each (fun acc r =>
              match r with
              | JNull => Ok acc
              | _ => us <- py_iter r ;; Ok (acc ++ us)
              end) col [].

(** Line 54; [df.replies] is the table's replies column. *)
Definition replies_count_dict (df : msg_table) : result (pydict Z) :=
  us <- flatten_non_null (replies df) ;; Counter us.

(** Line 55. *)
Definition mentions_count_dict (df : msg_table) : result (pydict Z) :=
  us <- flatten_non_null (mentions df) ;; Counter us.

Section Aggregator.

(** Lines 53 and 56 are pandas computations on the frame,
    [df.user.value_counts().to_dict()] and
    [df.groupby("user").link_count.sum().to_dict()]; they are parameters. *)
Variable value_counts : msg_table -> result (pydict Z).
Variable groupby_sum : msg_table -> result (pydict Z).

Definition get_msgs_df_info (df : msg_table)
  : result (pydict Z * pydict Z * pydict Z * pydict Z) :=
  msgs_count_dict <- value_counts df ;;
  replies_count_dict <- replies_count_dict df ;;
  mentions_count_dict <- mentions_count_dict df ;;
  links_count_dict <- groupby_sum df ;;
  Ok (msgs_count_dict, replies_count_dict, mentions_count_dict, links_count_dict).

End Aggregator.

(** ** [map_userid_2_realname] *)

(** The user-profile frame: its [profile] column (one dict per user, read
    by position) and its [id] column (the user identifiers). *)
Record user_profile : Type := MkProfile {
  up_profile : list json;
  up_id : list string
}.

(** Lines 283-284: collect all the real names. *)
Definition collect_real_names (profiles : list json) : result (list json) :=
  for_each (fun real_name p =>
              n <- py_getitem p "real_name" ;; Ok (real_name ++ [n]))
    profiles [].

(** Lines 287-289: [user_dict[i] = real_name[count]; count += 1]. *)
Definition build_user_dict (real_name : list json) (ids : list string)
  : result (list (string * json) * nat) :=
  for_each (fun st i =>
              match nth_error real_name (snd st) with
              | Some n => Ok (dict_set i n (fst st), S (snd st))
              | None => Err IndexError
              end)
    ids ([], 0%nat).

(** The count mapping [comm_dict]: user identifier to count. *)
Fixpoint comm_get (i : string) (comm_dict : list (string * Z)) : option Z :=
  match comm_dict with
  | [] => None
  | (k, c) :: rest => if String.eqb i k then Some c else comm_get i rest
  end.

(** Lines 293-294: the body of the loop over [comm_dict]. *)
Definition store_step (user_dict : list (string * json))
  (comm_dict : list (string * Z)) (ac_comm_dict : pydict Z) (i : string)
  : result (pydict Z) :=
  if has_key i user_dict then
    name <- match assoc i user_dict with
            | Some n => Ok n
            | None => Err (KeyError i)
            end ;;
    c <- match comm_get i comm_dict with
         | Some c => Ok c
         | None => Err (KeyError i)
         end ;;
    pd_setitem name c ac_comm_dict
  else Ok ac_comm_dict.

(** Lines 292-294: re-key the counts of the known identifiers. *)
Definition store_mapping (user_dict : list (string * json))
  (comm_dict : list (string * Z)) : result (pydict Z) :=
  for_each (store_step user_dict comm_dict) (map fst comm_dict) [].

(** [sort_values(by=count, ascending=False)].  pandas leaves the order of
    equal counts open; this sort keeps them in their original order. *)
Fixpoint insert_desc (r : json * Z) (rows : list (json * Z)) : list (json * Z) :=
  match rows with
  | [] => [r]
  | r' :: rest =>
      if snd r' <=? snd r then r :: r' :: rest else r' :: insert_desc r rest
  end.

Definition sort_values_desc (rows : list (json * Z)) : list (json * Z) :=
  fold_right insert_desc [] rows.

(** The function with [plot=False], its default: the rows of the frame it
    returns, each a display name and a count. *)
Definition map_userid_2_realname (up : user_profile)
  (comm_dict : list (string * Z)) : result (list (json * Z)) :=
  real_name <- collect_real_names (up_profile up) ;;
  st <- build_user_dict real_name (up_id up) ;;
  ac_comm_dict <- store_mapping (fst st) comm_dict ;;
  Ok (sort_values_desc ac_comm_dict).

(** ** [convert_2_timestamp] *)

(** *** The objects of [datetime]

    [datetime.fromtimestamp] and [strftime] belong to Python's library.
    The formatter is modelled over any kind of numeric epoch value, with
    the library's conversion as a parameter; the conversion itself is
    modelled further down for whole seconds. *)

Record datetime : Type := MkDatetime {
  dt_year : Z; dt_month : Z; dt_day : Z;
  dt_hour : Z; dt_minute : Z; dt_second : Z
}.

(** A number in decimal, and padded with zeros on the left to [w]
    characters. *)
Definition decimal (n : Z) : string := NilZero.string_of_int (Z.to_int n).

Fixpoint zeros (k : nat) (s : string) : string :=
  match k with
  | O => s
  | S k' => String "0" (zeros k' s)
  end.

Definition zfill (w : nat) (n : Z) : string :=
  zeros (w - String.length (decimal n)) (decimal n).

(** [a.strftime('%Y-%m-%d %H:%M:%S')].  The C library prints the year of
    [%Y] as it is, without padding; [%m %d %H %M %S] are two digits wide. *)
Definition strftime (a : datetime) : string :=
  (decimal (dt_year a) ++ "-" ++ zfill 2 (dt_month a) ++ "-" ++
   zfill 2 (dt_day a) ++ " " ++ zfill 2 (dt_hour a) ++ ":" ++
   zfill 2 (dt_minute a) ++ ":" ++ zfill 2 (dt_second a))%string.

Section Formatter.

(** The numeric epoch values a column holds, the test [time_unix == 0] on
    them, and [datetime.datetime.fromtimestamp(float(time_unix))]. *)
Variable value : Type.
Variable is_zero : value -> bool.
Variable fromtimestamp : value -> result datetime.

(** The frame [data]: its columns by name. *)
Fixpoint get_column (column : string) (data : list (string * list value))
  : option (list value) :=
  match data with
  | [] => None
  | (c, vs) :: rest => if String.eqb column c then Some vs else get_column column rest
  end.

Definition convert_2_timestamp (column : string)
  (data : list (string * list value)) : result (option (list json)) :=
  if existsb (String.eqb column) (map fst data) then
    col <- match get_column column data with
           | Some vs => Ok vs
           | None => Err (KeyError column)
           end ;;
    timestamp_ <-
      for_each (fun timestamp_ time_unix =>
                  if is_zero time_unix then Ok (timestamp_ ++ [JNum 0])
                  else
                    a <- fromtimestamp time_unix ;;
                    Ok (timestamp_ ++ [JStr (strftime a)]))
        col [] ;;
    Ok (Some timestamp_)
  else Ok None.

End Formatter.

Arguments get_column {value} column data.
Arguments convert_2_timestamp {value} is_zero fromtimestamp column data.

(** *** The conversion on whole seconds

    For epoch values that are integers, the conversion follows the
    library's reference implementation (an integer below 2^53 converts to
    [float] exactly). *)

Definition MINYEAR : Z := 1.
Definition MAXYEAR : Z := 9999.
Definition DI400Y : Z := 146097.
Definition DI100Y : Z := 36524.
Definition DI4Y : Z := 1461.

Definition days_in_month (m : Z) : Z :=
  match m with
  | 1 => 31 | 2 => 28 | 3 => 31 | 4 => 30 | 5 => 31 | 6 => 30
  | 7 => 31 | 8 => 31 | 9 => 30 | 10 => 31 | 11 => 30 | 12 => 31
  | _ => -1
  end.

Definition days_before_month (m : Z) : Z :=
  match m with
  | 1 => 0 | 2 => 31 | 3 => 59 | 4 => 90 | 5 => 120 | 6 => 151
  | 7 => 181 | 8 => 212 | 9 => 243 | 10 => 273 | 11 => 304 | 12 => 334
  | _ => -1
  end.

Definition b2z (b : bool) : Z := if b then 1 else 0.

(** Ordinal of a day (1 = 0001-01-01) to year, month, day. *)
Definition ord2ymd (n : Z) : Z * Z * Z :=
  let n := n - 1 in
  let n400 := n / DI400Y in
  let n := n mod DI400Y in
  let year := n400 * 400 + 1 in
  let n100 := n / DI100Y in
  let n := n mod DI100Y in
  let n4 := n / DI4Y in
  let n := n mod DI4Y in
  let n1 := n / 365 in
  let n := n mod 365 in
  let year := year + n100 * 100 + n4 * 4 + n1 in
  if (n1 =? 4) || (n100 =? 4) then (year - 1, 12, 31)
  else
    let leapyear := (n1 =? 3) && (negb (n4 =? 24) || (n100 =? 3)) in
    let month := Z.shiftr (n + 50) 5 in
    let preceding := days_before_month month + b2z ((2 <? month) && leapyear) in
    if n <? preceding then
      let month := month - 1 in
      let preceding :=
        preceding - (days_in_month month + b2z ((month =? 2) && leapyear)) in
      (year, month, n - preceding + 1)
    else (year, month, n - preceding + 1).

Section LocalTime.

(** The local time zone: seconds east of UTC at a given instant. *)
Variable utcoffset : Z -> Z.

(** The broken-down local time of an instant, as a [datetime] object; the
    conversion raises outside the years [MINYEAR..MAXYEAR]. *)
Definition localtime (t : Z) : result datetime :=
  let s := t + utcoffset t in
  let days := s / 86400 in
  let r := s mod 86400 in
  let '(y, m, d) := ord2ymd (days + 719163) in
  if (MINYEAR <=? y) && (y <=? MAXYEAR)
  then Ok (MkDatetime y m d (r / 3600) (r mod 3600 / 60) (Z.min (r mod 60) 59))
  else Err TimestampError.

(** [datetime.fromtimestamp(float(t))] without a time zone argument.  The
    second conversion is the probe, one day back, by which the library
    looks for a repeated hour; it fails like the first. *)
Definition fromtimestamp_seconds (t : Z) : result datetime :=
  dt <- localtime t ;;
  _ <- localtime (t - 24 * 3600) ;;
  Ok dt.

End LocalTime.

(** The zone used in the examples: UTC. *)
Definition utc (t : Z) : Z := 0.

(** [time_unix == 0] on integers. *)
Definition is_zero_seconds (t : Z) : bool := t =? 0.

(** ** [break_combined_weeks] *)

(** Lines 26-37; a week pair is a tuple of two week numbers. *)
Definition break_combined_weeks (combined_weeks : list (Z * Z)) : list Z * list Z :=
  fold_left (fun acc week =>
               let plus_one_week := fst acc in
               let minus_one_week := snd acc in
               if fst week <? snd week
               then (plus_one_week ++ [fst week], minus_one_week ++ [snd week])
               else (plus_one_week ++ [snd week], minus_one_week ++ [fst week]))
    combined_weeks ([], []).

(** ** [process_msgs] *)

Definition process_msgs_keys : list string :=
  ["client_msg_id"; "type"; "text"; "user"; "ts"; "team"; "thread_ts";
   "reply_count"; "reply_users_count"].

(** Lines 222-226: [{k: msg[k] for k in keys}], then the replies. *)
Definition process_msgs (msg : json) : result (json * list json) :=
  msg_list <- for_each (fun d k => v <- py_getitem msg k ;; Ok (dict_set k v d))
                process_msgs_keys [] ;;
  rply_list <- from_msg_get_replies msg ;;
  Ok (JDict msg_list, rply_list).

(** ** [msgs_to_df] *)

(** [pd.DataFrame(msg_list)] on a dict of lists: pandas builds the frame
    only when all the lists have the same length, and raises [ValueError]
    otherwise.  The frame is the record of its columns. *)
Definition DataFrame (msg_list : msg_table) : result msg_table :=
  let n := List.length (msg_id msg_list) in
  if forallb (fun col => Nat.eqb (List.length col) n)
       [text msg_list; attachments msg_list; user msg_list; mentions msg_list;
        emojis msg_list; reactions msg_list; replies msg_list;
        replies_to msg_list; ts msg_list; links msg_list; link_count msg_list]
  then Ok msg_list
  else Err ValueError.

(** Lines 203-205. *)
Definition msgs_to_df (msgs : list json) : result msg_table :=
  msg_list <- get_messages_dict msgs ;;
  DataFrame msg_list.

(** ** [get_tagged_users] *)

(** The class [\w] of Python's [re] on text: letters, digits and the
    underscore.  Characters are code points below 256. *)
Definition is_word_char (c : ascii) : bool :=
  let n := nat_of_ascii c in
  existsb (fun r => (fst r <=? n)%nat && (n <=? snd r)%nat)
    [(48, 57); (65, 90); (95, 95); (97, 122); (170, 170); (178, 179);
     (181, 181); (185, 186); (188, 190); (192, 214); (216, 246);
     (248, 255)]%nat.

(** [\w*] at the start of [s], greedy: the longest run of word characters
    and what follows it. *)
Fixpoint take_word (s : string) : string * string :=
  match s with
  | EmptyString => (EmptyString, EmptyString)
  | String c rest =>
      if is_word_char c
      then let (w, r) := take_word rest in (String c w, r)
      else (EmptyString, s)
  end.

(** The pattern [@U\w+] tried at the start of [s]: the text it matches. *)
Definition match_tag (s : string) : option string :=
  match s with
  | String "@" (String "U" t) =>
      match take_word t with
      | (EmptyString, _) => None
      | (w, _) => Some (String "@" (String "U" w))
      end
  | _ => None
  end.

(** [re.findall(r'@U\w+', s)]: the pattern is tried at every position from
    left to right, and the search resumes after each match; [skip] counts
    the characters of the last match that are still ahead. *)
Fixpoint scan_tags (skip : nat) (s : string) : list string :=
  match s with
  | EmptyString => []
  | String c rest =>
      match skip with
      | S k => scan_tags k rest
      | O =>
          match match_tag s with
          | Some tag => tag :: scan_tags (String.length tag - 1) rest
          | None => scan_tags 0 rest
          end
      end
  end.

Definition findall_tags (s : string) : list string := scan_tags 0 s.

(** A frame with columns of arbitrary values. *)
Fixpoint frame_column (column : string) (df : list (string * list json))
  : option (list json) :=
  match df with
  | [] => None
  | (c, vs) :: rest =>
      if String.eqb column c then Some vs else frame_column column rest
  end.

(** Line 268: [df['msg_content'].map(lambda x: re.findall(r'@U\w+', x))];
    [re.findall] accepts a string only. *)
Definition get_tagged_users (df : list (string * list json))
  : result (list json) :=
  match frame_column "msg_content" df with
  | None => Err (KeyError "msg_content")
  | Some col =>
      for_each (fun tags x =>
                  match x with
                  | JStr s => Ok (tags ++ [JList (map JStr (findall_tags s))])
                  | _ => Err TypeError
                  end) col []
  end.

(** ** The vocabulary of the properties *)

(** *** Messages and rows *)

(** A field of a record, [None] when the record does not have it. *)
Definition field (k : string) (v : json) : json :=
  try_except (py_getitem v k) JNull.

(** The input messages that have no ["subtype"] key, in input order. *)
Definition lacks_subtype (msg : json) : bool :=
  match py_contains "subtype" msg with
  | Ok false => true
  | _ => false
  end.

Definition kept (msgs : list json) : list json := filter lacks_subtype msgs.

(** What lies one level down in a layout block: the items under the key
    ["elements"], none when the key is absent. *)
Definition children (v : json) : list json :=
  match py_getitem v "elements" with
  | Ok els => try_except (py_iter els) []
  | Err _ => []
  end.

Definition blocks_of (msg : json) : list json :=
  try_except (bs <- py_getitem msg "blocks" ;; py_iter bs) [].

(** The sub-elements reached by the walk block, element, sub-element. *)
Definition sub_elements (msg : json) : list json :=
  flat_map children (flat_map children (blocks_of msg)).

(** A sub-element whose type tag is [t]. *)
Definition tagged (t : string) (e : json) : bool :=
  match e with
  | JDict d =>
      match assoc "type" d with
      | Some (JStr s) => String.eqb s t
      | _ => false
      end
  | _ => false
  end.

(** The accumulators after the walk has seen the sub-elements [es]. *)
Definition extend (a : walk_acc) (es : list json) : walk_acc :=
  MkAcc (emoji_list a ++ map (field "name") (filter (tagged "emoji") es))
        (mention_list a ++ map (field "user_id") (filter (tagged "user") es))
        (walk_link_count a + Z.of_nat (List.length (filter (tagged "link") es)))
        (walk_links a ++ map (field "url") (filter (tagged "link") es)).

(** The walk of line 133 over the value under ["blocks"]. *)
Definition walk_blocks (bs : json) : result walk_acc :=
  blks <- py_iter bs ;; for_each walk_block blks walk_init.

(** One row of the table: what one message appends to the columns. *)
Record row : Type := MkRow {
  r_msg_id : json; r_text : json; r_user : json; r_ts : json;
  r_reactions : json; r_replies_to : json; r_replies : json;
  r_emojis : json; r_mentions : json; r_links : json; r_link_count : json
}.

Definition push_row (t : msg_table) (r : row) : msg_table :=
  MkTable (msg_id t ++ [r_msg_id r]) (text t ++ [r_text r]) (attachments t)
    (user t ++ [r_user r]) (mentions t ++ [r_mentions r])
    (emojis t ++ [r_emojis r]) (reactions t ++ [r_reactions r])
    (replies t ++ [r_replies r]) (replies_to t ++ [r_replies_to r])
    (ts t ++ [r_ts r]) (links t ++ [r_links r])
    (link_count t ++ [r_link_count r]).

(** The row of a message, computed in the order of lines 103-159. *)
Definition extract_row (msg : json) : result row :=
  let id := try_except (py_getitem msg "client_msg_id") JNull in
  tx <- py_getitem msg "text" ;;
  us <- py_getitem msg "user" ;;
  tm <- py_getitem msg "ts" ;;
  c <- py_contains "reactions" msg ;;
  re <- (if c : bool then py_getitem msg "reactions" else Ok JNull) ;;
  c <- py_contains "parent_user_id" msg ;;
  rt <- (if c : bool then py_getitem msg "ts" else Ok JNull) ;;
  c1 <- py_contains "thread_ts" msg ;;
  c <- (if c1 : bool then py_contains "reply_users" msg else Ok false) ;;
  rp <- (if c : bool then py_getitem msg "replies" else Ok JNull) ;;
  c <- py_contains "blocks" msg ;;
  if c : bool then
    bs <- py_getitem msg "blocks" ;;
    blks <- py_iter bs ;;
    a <- for_each walk_block blks walk_init ;;
    Ok (MkRow id tx us tm re rt rp (JList (emoji_list a))
          (JList (mention_list a)) (JList (walk_links a))
          (JNum (walk_link_count a)))
  else Ok (MkRow id tx us tm re rt rp JNull JNull JNull (JNum 0)).

(** All rows of a list of messages, the first failure winning. *)
Fixpoint extract_rows (msgs : list json) : result (list row) :=
  match msgs with
  | [] => Ok []
  | m :: rest =>
      sub <- py_contains "subtype" m ;;
      if sub : bool then extract_rows rest
      else r <- extract_row m ;; rs <- extract_rows rest ;; Ok (r :: rs)
  end.

(** *** Replies and counts *)

(** The replies that come before the first one that is not a record. *)
Fixpoint record_prefix (items : list json) : list (list (string * json)) :=
  match items with
  | JDict r :: rest => r :: record_prefix rest
  | _ => []
  end.

(** What the reply extractor returns for the record [d], in the words of
    its documentation: the replies, each tagged with the thread timestamp
    and the identifier of the parent, as far as they can be processed. *)
Definition tagged_replies (d : list (string * json)) : list json :=
  match assoc "thread_ts" d, assoc "replies" d, assoc "client_msg_id" d with
  | Some th, Some (JList items), Some mid =>
      map (fun r => JDict (dict_set "message_id" mid (dict_set "thread_ts" th r)))
        (record_prefix items)
  | _, _, _ => []
  end.

(** The elements of one entry of a column of lists: none for [None]. *)
Definition entry_items (r : json) : list json :=
  match r with
  | JNull => []
  | _ => try_except (py_iter r) []
  end.

(** How often the user identifier [u] occurs as an element across the
    non-null entries of a column. *)
Definition occurrences (u : string) (col : list json) : nat :=
  List.length (filter (fun x => py_eq_str x u) (flat_map entry_items col)).

(** *** The directory *)

(** The directory mapping the resolver builds at lines 283-289: user
    identifier to display name. *)
Definition directory (up : user_profile) : result (list (string * json)) :=
  real_name <- collect_real_names (up_profile up) ;;
  st <- build_user_dict real_name (up_id up) ;;
  Ok (fst st).

(** The counts of the identifiers present in the directory, each paired
    with the display name of its identifier, in the count mapping's order. *)
Definition resolved (user_dict : list (string * json))
  (comm_dict : list (string * Z)) : list (json * Z) :=
  flat_map (fun i => match assoc i user_dict, comm_get i comm_dict with
                     | Some n, Some c => [(n, c)]
                     | _, _ => []
                     end)
    (map fst comm_dict).

(** Rows in descending order of count. *)
Definition desc (r r' : json * Z) : Prop := snd r' <= snd r.

(** No two rows have the same key. *)
Fixpoint distinct_keys {V : Type} (d : pydict V) : Prop :=
  match d with
  | [] => True
  | (k, _) :: d' => Forall (fun e => key_eqb k (fst e) = false) d' /\ distinct_keys d'
  end.

(** *** The shape of a formatted timestamp *)

Definition is_digit (c : ascii) : bool :=
  (48 <=? nat_of_ascii c)%nat && (nat_of_ascii c <=? 57)%nat.

(** [matches pat s]: [s] has one character per entry of [pat], a decimal
    digit where the entry is [None], the given character otherwise. *)
Fixpoint matches (pat : list (option ascii)) (s : string) : bool :=
  match pat, s with
  | [], EmptyString => true
  | None :: pat', String c s' => is_digit c && matches pat' s'
  | Some l :: pat', String c s' => Ascii.eqb c l && matches pat' s'
  | _, _ => false
  end.

(** The form YYYY-MM-DD HH:MM:SS. *)
Definition timestamp_pattern : list (option ascii) :=
  [None; None; None; None; Some "-"%char; None; None; Some "-"%char;
   None; None; Some " "%char; None; None; Some ":"%char; None; None;
   Some ":"%char; None; None].

Definition timestamp_form (s : string) : bool := matches timestamp_pattern s.

(** The local seconds that fall between 0001-01-01 00:00:00 and
    9999-12-31 23:59:59. *)
Definition in_datetime_range (s : Z) : bool :=
  (-62135596800 <=? s) && (s <=? 253402300799).

(** The instants [fromtimestamp_seconds] converts: the local time of the
    instant and of the probe, one day before, are in range. *)
Definition representable (utcoffset : Z -> Z) (t : Z) : bool :=
  in_datetime_range (t + utcoffset t) &&
  in_datetime_range (t - 24 * 3600 + utcoffset (t - 24 * 3600)).

(** The fields of a [datetime] object are within their ranges. *)
Definition datetime_ok (a : datetime) : Prop :=
  MINYEAR <= dt_year a <= MAXYEAR /\ 1 <= dt_month a <= 12 /\
  1 <= dt_day a <= 31 /\ 0 <= dt_hour a <= 23 /\
  0 <= dt_minute a <= 59 /\ 0 <= dt_second a <= 59.

(** The entry the formatter is to produce for an epoch value: 0 for a
    zero, a string of the form otherwise. *)
Definition formatted {value : Type} (is_zero : value -> bool) (time_unix : value)
  (v : json) : Prop :=
  if is_zero time_unix then v = JNum 0
  else exists s, v = JStr s /\ timestamp_form s = true.

(** A non-zero value that [fromtimestamp] refuses. *)
Definition unconvertible {value : Type} (is_zero : value -> bool)
  (fromtimestamp : value -> result datetime) (v : value) : bool :=
  negb (is_zero v) &&
  match fromtimestamp v with
  | Ok _ => false
  | Err _ => true
  end.

(** ** Sample inputs *)

(** A message with a layout block holding a mention, an emoji, a link and
    plain text. *)
Definition sample_rich : json :=
  JDict [("client_msg_id", JStr "m1"); ("text", JStr "hi <@U2>");
         ("user", JStr "U1"); ("ts", JStr "1634.0001");
         ("blocks",
          JList [JDict [("type", JStr "rich_text");
                        ("elements",
                         JList [JDict [("type", JStr "rich_text_section");
                                       ("elements",
                                        JList [JDict [("type", JStr "user");
                                                      ("user_id", JStr "U2")];
                                               JDict [("type", JStr "emoji");
                                                      ("name", JStr "smile")];
                                               JDict [("type", JStr "link");
                                                      ("url", JStr "http://x")];
                                               JDict [("type", JStr "text");
                                                      ("text", JStr "hi")]])]])]])].

(** A system message. *)
Definition sample_join : json :=
  JDict [("subtype", JStr "channel_join"); ("text", JStr "joined");
         ("user", JStr "U3"); ("ts", JStr "1634.0002")].

(** A message without identifier, reactions, thread or blocks. *)
Definition sample_plain : json :=
  JDict [("text", JStr "bye"); ("user", JStr "U2"); ("ts", JStr "1634.0003")].

Definition sample_msgs : list json := [sample_rich; sample_join; sample_plain].

Definition sample_table : msg_table :=
  MkTable [JStr "m1"; JNull] [JStr "hi <@U2>"; JStr "bye"] []
    [JStr "U1"; JStr "U2"] [JList [JStr "U2"]; JNull]
    [JList [JStr "smile"]; JNull] [JNull; JNull] [JNull; JNull] [JNull; JNull]
    [JStr "1634.0001"; JStr "1634.0003"] [JList [JStr "http://x"]; JNull]
    [JNum 1; JNum 0].

(** A record with a sender and a timestamp but no text. *)
Definition sample_no_text : json :=
  JDict [("client_msg_id", JStr "m4"); ("user", JStr "U1");
         ("ts", JStr "1634.0004")].

(** A record without a sender. *)
Definition sample_no_sender : json :=
  JDict [("client_msg_id", JStr "m6"); ("text", JStr "ping");
         ("ts", JStr "1634.0007")].

(** A thread parent that lists its reply users but holds no reply list. *)
Definition sample_thread_parent : json :=
  JDict [("client_msg_id", JStr "m7"); ("text", JStr "q"); ("user", JStr "U1");
         ("ts", JStr "1634.0008"); ("thread_ts", JStr "1634.0008");
         ("reply_users", JList [JStr "U2"])].

(** A thread whose reply list holds a reply record followed by a number. *)
Definition sample_broken_thread : json :=
  JDict [("client_msg_id", JStr "m5"); ("text", JStr "q"); ("user", JStr "U1");
         ("ts", JStr "1634.0005"); ("thread_ts", JStr "1634.0005");
         ("replies", JList [JDict [("user", JStr "U2"); ("ts", JStr "1634.0006")];
                            JNum 5])].

(** A table whose replies column holds a null entry and two reply lists. *)
Definition sample_replies_table : msg_table :=
  MkTable [] [] [] [] [] [] []
    [JNull; JList [JStr "U1"; JStr "U2"]; JList [JStr "U1"]] [] [] [] [].

(** Three users, two of whom have the same display name. *)
Definition sample_profile : user_profile :=
  MkProfile [JDict [("real_name", JStr "Ann")]; JDict [("real_name", JStr "Ann")];
             JDict [("real_name", JStr "Bob")]]
            ["U1"; "U2"; "U3"].

Definition sample_directory : list (string * json) :=
  [("U1", JStr "Ann"); ("U2", JStr "Ann"); ("U3", JStr "Bob")].

Definition sample_comm : list (string * Z) := [("U1", 3); ("U3", 4); ("U2", 5)].

(** Two users with different display names, and a count mapping that also
    counts an identifier the directory does not know. *)
Definition sample_profile_two : user_profile :=
  MkProfile [JDict [("real_name", JStr "Ann")]; JDict [("real_name", JStr "Bob")]]
            ["U1"; "U3"].

Definition sample_directory_two : list (string * json) :=
  [("U1", JStr "Ann"); ("U3", JStr "Bob")].

Definition sample_comm_unknown : list (string * Z) :=
  [("U1", 3); ("U9", 7); ("U3", 4)].

(** *** Week pairs *)

(** The smaller and the larger week of every pair. *)
Definition earlier_weeks (ws : list (Z * Z)) : list Z :=
  map (fun w => Z.min (fst w) (snd w)) ws.

Definition later_weeks (ws : list (Z * Z)) : list Z :=
  map (fun w => Z.max (fst w) (snd w)) ws.

(** *** Threads *)

(** A reply tagged with the thread timestamp and the identifier of its
    parent, as lines 183-184 leave it. *)
Definition tag_with (th mid : json) (r : list (string * json)) : json :=
  JDict (dict_set "message_id" mid (dict_set "thread_ts" th r)).

(** A reply [r] is the record [r0] with the two tags set and every other
    field unchanged. *)
Definition tagged_copy (th mid : json) (r0 r : json) : Prop :=
  exists d0 d,
    r0 = JDict d0 /\ r = JDict d /\
    assoc "thread_ts" d = Some th /\ assoc "message_id" d = Some mid /\
    forall k, k <> "thread_ts" -> k <> "message_id" -> assoc k d = assoc k d0.

(** The first key of [keys] that the record [d] does not have. *)
Definition first_missing (keys : list string) (d : list (string * json))
  : option string :=
  find (fun k => negb (has_key k d)) keys.

(** A thread parent with two replies, complete for [process_msgs]. *)
Definition sample_thread : json :=
  JDict [("client_msg_id", JStr "m8"); ("type", JStr "message");
         ("text", JStr "q"); ("user", JStr "U1"); ("ts", JStr "1634.0010");
         ("team", JStr "T1"); ("thread_ts", JStr "1634.0010");
         ("reply_count", JNum 2); ("reply_users_count", JNum 2);
         ("replies", JList [JDict [("user", JStr "U2"); ("ts", JStr "1634.0011")];
                            JDict [("user", JStr "U3"); ("ts", JStr "1634.0012")]])].

(** *** Tables *)

(** Two tables put one after the other, column by column. *)
Definition table_concat (a b : msg_table) : msg_table :=
  MkTable (msg_id a ++ msg_id b) (text a ++ text b)
    (attachments a ++ attachments b) (user a ++ user b)
    (mentions a ++ mentions b) (emojis a ++ emojis b)
    (reactions a ++ reactions b) (replies a ++ replies b)
    (replies_to a ++ replies_to b) (ts a ++ ts b) (links a ++ links b)
    (link_count a ++ link_count b).

(** A reply inside a thread, as exports hold it. *)
Definition sample_reply : json :=
  JDict [("client_msg_id", JStr "m9"); ("text", JStr "a"); ("user", JStr "U2");
         ("ts", JStr "1634.0011"); ("thread_ts", JStr "1634.0010");
         ("parent_user_id", JStr "U1")].

(** *** Countable columns *)

(** An entry the [Counter] lines can digest: [None], or something to
    iterate over whose elements can all be hashed. *)
Definition countable_entry (r : json) : bool :=
  match r with
  | JNull => true
  | _ =>
      match py_iter r with
      | Ok items => forallb hashable items
      | Err _ => false
      end
  end.

(** The mentions of the user [u] in a message: the sub-elements tagged
    ["user"] whose user id is [u]. *)
Definition mentions_of (u : string) (msg : json) : list json :=
  filter (fun e => tagged "user" e && py_eq_str (field "user_id" e) u)
    (sub_elements msg).

(** The sum of the counts of a counter. *)
Definition total_count (c : pydict Z) : Z :=
  fold_right (fun kv acc => snd kv + acc) 0 c.

(** A thread parent as exports hold it, with its reply records. *)
Definition sample_export_thread : json :=
  JDict [("client_msg_id", JStr "m10"); ("text", JStr "q"); ("user", JStr "U1");
         ("ts", JStr "1634.0010"); ("thread_ts", JStr "1634.0010");
         ("reply_users", JList [JStr "U2"]);
         ("replies", JList [JDict [("user", JStr "U2"); ("ts", JStr "1634.0011")]])].


(** *** Profiles *)


(** A profile frame with more identifiers than named profiles. *)
Definition sample_profile_short : user_profile :=
  MkProfile [JDict [("real_name", JStr "Ann")]] ["U1"; "U2"].

(** *** Tags in a text *)

(** The non-empty suffixes of a text, from the whole text on: one for
    every position. *)
Fixpoint suffixes (s : string) : list string :=
  match s with
  | EmptyString => []
  | String _ rest => s :: suffixes rest
  end.

(** All characters of a text are word characters. *)
Fixpoint all_word (s : string) : bool :=
  match s with
  | EmptyString => true
  | String c rest => is_word_char c && all_word rest
  end.

(** The first [k] characters of a text hold no ["@"]. *)
Fixpoint no_at (k : nat) (s : string) : Prop :=
  match k, s with
  | S k', String c rest => c <> "@"%char /\ no_at k' rest
  | _, _ => True
  end.

(** The matches of the pattern [@U\w+] at the positions of a text, from
    left to right. *)
Definition pattern_matches (s : string) : list string :=
  flat_map (fun x => match match_tag x with
                     | Some tag => [tag]
                     | None => []
                     end) (suffixes s).

Definition is_text (x : json) : bool :=
  match x with
  | JStr _ => true
  | _ => false
  end.

(** The entry the tag extractor produces for the text [x]. *)
Definition tags_entry (x : json) : json :=
  match x with
  | JStr s => JList (map JStr (pattern_matches s))
  | _ => JNull
  end.

(** *** Payloads and extractable records *)

(** The value [e] has no field [k] to read. *)
Definition lacks_field_of (e : json) (k : string) : bool :=
  match py_getitem e k with
  | Ok _ => false
  | Err _ => true
  end.

(** A sub-element carries the payload its type tag asks for. *)
Definition has_payload (e : json) : bool :=
  implb (tagged "emoji" e) (negb (lacks_field_of e "name")) &&
  implb (tagged "user" e) (negb (lacks_field_of e "user_id")) &&
  implb (tagged "link" e) (negb (lacks_field_of e "url")).

(** The records on which one loop iteration of the extractor goes
    through: a system message, or a record with text, sender and timestamp,
    with a reply list if it has the two thread keys, and with blocks, if
    any, on which the walk returns. *)
Definition extractable (d : list (string * json)) : bool :=
  has_key "subtype" d ||
  (has_key "text" d && has_key "user" d && has_key "ts" d &&
   (negb (has_key "thread_ts" d && has_key "reply_users" d) ||
    has_key "replies" d) &&
   match assoc "blocks" d with
   | None => true
   | Some bs =>
       match walk_blocks bs with
       | Ok _ => true
       | Err _ => false
       end
   end).

(** * Properties *)

(** ** Loops in the error monad *)

Lemma bind_ok {A B : Type} (m : result A) (k : A -> result B) (b : B) :
  bind m k = Ok b -> exists a, m = Ok a /\ k a = Ok b.
Proof.
  destruct m as [a|e]; simpl; intros H; [eauto | discriminate].
Qed.

Ltac bind_inv H :=
  let x := fresh "x" in
  let Hx := fresh "Hx" in
  apply bind_ok in H; destruct H as (x & Hx & H).

Lemma for_each_app {S A : Type} (body : S -> A -> result S) (xs ys : list A) (s : S) :
  for_each body (xs ++ ys) s = (s' <- for_each body xs s ;; for_each body ys s').
Proof.
  revert s; induction xs as [|x xs IH]; intros s; simpl; [reflexivity|].
  destruct (body s x); simpl; auto.
Qed.

(** ** The walk over the layout blocks *)

Lemma extend_nil (a : walk_acc) : extend a [] = a.
Proof.
  destruct a; unfold extend; simpl. rewrite !app_nil_r, Z.add_0_r. reflexivity.
Qed.

Lemma extend_app (a : walk_acc) (es fs : list json) :
  extend a (es ++ fs) = extend (extend a es) fs.
Proof.
  unfold extend; simpl.
  rewrite !filter_app, !map_app, !length_app, !app_assoc, Nat2Z.inj_add.
  f_equal. lia.
Qed.

(** A loop whose body extends the accumulators by the sub-elements under
    each item extends them by the sub-elements under all items. *)
Lemma for_each_extend (body : walk_acc -> json -> result walk_acc)
  (under : json -> list json) :
  (forall a x a', body a x = Ok a' -> a' = extend a (under x)) ->
  forall xs a a', for_each body xs a = Ok a' -> a' = extend a (flat_map under xs).
Proof.
  intros Hbody; induction xs as [|x xs IH]; intros a a' H; simpl in *.
  - injection H as <-. symmetry; apply extend_nil.
  - bind_inv H. apply Hbody in Hx; subst x0.
    rewrite extend_app. now apply IH.
Qed.

Lemma extend_untagged (a : walk_acc) (e : json) :
  tagged "emoji" e = false -> tagged "user" e = false ->
  tagged "link" e = false -> extend a [e] = a.
Proof.
  intros He Hu Hl. destruct a; unfold extend; simpl.
  rewrite He, Hu, Hl; simpl. rewrite !app_nil_r, Z.add_0_r. reflexivity.
Qed.

Lemma classify_extend (a : walk_acc) (e : json) (a' : walk_acc) :
  classify a e = Ok a' -> a' = extend a [e].
Proof.
  unfold classify; intros H.
  destruct e as [| b | z | s | l | d]; simpl in H; try discriminate.
  - destruct (is_substring "type" s); simpl in H; [discriminate|].
    injection H as <-. symmetry; now apply extend_untagged.
  - destruct (existsb _ l); simpl in H; [discriminate|].
    injection H as <-. symmetry; now apply extend_untagged.
  - unfold has_key in H.
    destruct (assoc "type" d) as [ty|] eqn:Hty; simpl in H.
    2:{ injection H as <-. symmetry.
        apply extend_untagged; simpl; now rewrite Hty. }
    assert (Htag : forall t, tagged t (JDict d) = py_eq_str ty t).
    { intros t; simpl; rewrite Hty. destruct ty; reflexivity. }
    unfold extend, field; cbn [filter py_getitem]. rewrite !Htag.
    destruct a as [el ml lc ls]; simpl in *.
    destruct (py_eq_str ty "emoji"), (py_eq_str ty "user"), (py_eq_str ty "link");
      simpl in *;
      repeat match type of H with
             | context [assoc ?k d] => destruct (assoc k d); simpl in H; try discriminate
             end;
      injection H as <-; simpl; rewrite ?app_nil_r, ?Z.add_0_r; reflexivity.
Qed.

Lemma children_iter (v els : json) (xs : list json) :
  py_contains "elements" v = Ok true ->
  py_getitem v "elements" = Ok els -> py_iter els = Ok xs -> children v = xs.
Proof.
  intros _ Hg Hi. unfold children. now rewrite Hg, Hi.
Qed.

Lemma children_absent (v : json) :
  py_contains "elements" v = Ok false -> children v = [].
Proof.
  unfold children. destruct v; simpl; try discriminate; try reflexivity.
  unfold has_key. destruct (assoc "elements" d); [discriminate | reflexivity].
Qed.

Lemma flat_map_singleton {A : Type} (xs : list A) :
  flat_map (fun x => [x]) xs = xs.
Proof.
  induction xs as [|x xs IH]; simpl; [reflexivity | now rewrite IH].
Qed.

Lemma walk_element_extend (a : walk_acc) (elm : json) (a' : walk_acc) :
  walk_element a elm = Ok a' -> a' = extend a (children elm).
Proof.
  unfold walk_element; intros H.
  bind_inv H. destruct x.
  - bind_inv H. bind_inv H.
    rewrite (children_iter _ _ _ Hx Hx0 Hx1).
    apply (for_each_extend classify (fun e => [e])) in H.
    + now rewrite flat_map_singleton in H.
    + apply classify_extend.
  - injection H as <-. rewrite (children_absent _ Hx). symmetry; apply extend_nil.
Qed.

Lemma walk_block_extend (a : walk_acc) (blk : json) (a' : walk_acc) :
  walk_block a blk = Ok a' -> a' = extend a (flat_map children (children blk)).
Proof.
  unfold walk_block; intros H.
  bind_inv H. destruct x.
  - bind_inv H. bind_inv H.
    rewrite (children_iter _ _ _ Hx Hx0 Hx1).
    now apply (for_each_extend walk_element children walk_element_extend) in H.
  - injection H as <-. rewrite (children_absent _ Hx). symmetry; apply extend_nil.
Qed.

(** The walk of lines 133-148 collects, in order, the payloads of the
    tagged sub-elements two levels below the blocks. *)
Lemma walk_blocks_extend (blks : list json) (a a' : walk_acc) :
  for_each walk_block blks a = Ok a' ->
  a' = extend a (flat_map children (flat_map children blks)).
Proof.
  intros H.
  apply (for_each_extend walk_block (fun b => flat_map children (children b))
           walk_block_extend) in H.
  rewrite H. f_equal. clear H.
  induction blks as [|b bs IH]; [reflexivity|].
  cbn [flat_map]. now rewrite flat_map_app, IH.
Qed.

(** ** The table as a list of rows *)

Lemma process_message_row (t : msg_table) (msg : json) :
  process_message t msg =
  (sub <- py_contains "subtype" msg ;;
   if sub : bool then Ok t else r <- extract_row msg ;; Ok (push_row t r)).
Proof.
  unfold process_message, extract_row.
  destruct msg as [| b | z | s | l | d]; simpl; try reflexivity.
  unfold has_key.
  destruct (assoc "subtype" d); simpl; [reflexivity|].
  destruct (assoc "text" d); simpl; [|reflexivity].
  destruct (assoc "user" d); simpl; [|reflexivity].
  destruct (assoc "ts" d); simpl; [|reflexivity].
  destruct (assoc "reactions" d); simpl;
    (destruct (assoc "parent_user_id" d); simpl;
     (destruct (assoc "thread_ts" d); simpl;
      [ destruct (assoc "reply_users" d); simpl;
        [ destruct (assoc "replies" d); simpl; [|reflexivity] | ] | ];
      (destruct (assoc "blocks" d) as [bs|]; simpl; [|reflexivity];
       destruct (py_iter bs) as [blks|]; simpl; [|reflexivity];
       destruct (for_each walk_block blks walk_init); reflexivity))).
Qed.

Lemma fold_push_row_columns (rs : list row) (t : msg_table) :
  fold_left push_row rs t =
  MkTable (msg_id t ++ map r_msg_id rs) (text t ++ map r_text rs)
    (attachments t) (user t ++ map r_user rs)
    (mentions t ++ map r_mentions rs) (emojis t ++ map r_emojis rs)
    (reactions t ++ map r_reactions rs) (replies t ++ map r_replies rs)
    (replies_to t ++ map r_replies_to rs) (ts t ++ map r_ts rs)
    (links t ++ map r_links rs) (link_count t ++ map r_link_count rs).
Proof.
  revert t; induction rs as [|r rs IH]; intros t; simpl.
  - rewrite !app_nil_r. now destruct t.
  - rewrite IH. unfold push_row; simpl. now rewrite <- !app_assoc.
Qed.

Lemma for_each_process_rows (msgs : list json) (t : msg_table) :
  for_each process_message msgs t =
  (rs <- extract_rows msgs ;; Ok (fold_left push_row rs t)).
Proof.
  revert t; induction msgs as [|m msgs IH]; intros t; simpl; [reflexivity|].
  rewrite process_message_row.
  destruct (py_contains "subtype" m) as [[|]|e]; simpl; auto.
  destruct (extract_row m) as [r|e]; simpl; [|reflexivity].
  rewrite IH. destruct (extract_rows msgs); reflexivity.
Qed.

(** The table returned is made of the rows of the kept messages. *)
Lemma get_messages_dict_rows (msgs : list json) (t : msg_table) :
  get_messages_dict msgs = Ok t ->
  exists rs,
    Forall2 (fun m r => extract_row m = Ok r) (kept msgs) rs /\
    t = MkTable (map r_msg_id rs) (map r_text rs) [] (map r_user rs)
          (map r_mentions rs) (map r_emojis rs) (map r_reactions rs)
          (map r_replies rs) (map r_replies_to rs) (map r_ts rs)
          (map r_links rs) (map r_link_count rs).
Proof.
  unfold get_messages_dict. rewrite for_each_process_rows. intros H.
  bind_inv H. exists x. injection H as <-. split.
  - clear -Hx. revert x Hx.
    induction msgs as [|m msgs IH]; intros rs H; simpl in H.
    + injection H as <-. constructor.
    + unfold kept, lacks_subtype; simpl.
      destruct (py_contains "subtype" m) as [[|]|e]; simpl in H;
        try discriminate; [now apply IH|].
      bind_inv H. bind_inv H. injection H as <-.
      constructor; [assumption | now apply IH].
  - now rewrite fold_push_row_columns.
Qed.

Lemma Forall2_nth_error {A B : Type} (R : A -> B -> Prop) (xs : list A)
  (ys : list B) (i : nat) (x : A) :
  Forall2 R xs ys -> nth_error xs i = Some x ->
  exists y, nth_error ys i = Some y /\ R x y.
Proof.
  intros H; revert i; induction H as [|x0 y0 xs ys HR _ IH]; intros i Hi.
  - destruct i; discriminate.
  - destruct i as [|i]; simpl in *.
    + injection Hi as <-. eauto.
    + now apply IH.
Qed.

(** What a row holds, read off the message it was extracted from. *)
Lemma extract_row_inv (m : json) (r : row) :
  extract_row m = Ok r ->
  exists d,
    m = JDict d /\
    r_msg_id r = field "client_msg_id" m /\
    assoc "text" d = Some (r_text r) /\
    assoc "user" d = Some (r_user r) /\
    assoc "ts" d = Some (r_ts r) /\
    r_reactions r = field "reactions" m /\
    r_replies_to r = (if has_key "parent_user_id" d then r_ts r else JNull) /\
    r_replies r =
      (if has_key "thread_ts" d && has_key "reply_users" d
       then field "replies" m else JNull) /\
    match assoc "blocks" d with
    | None =>
        r_emojis r = JNull /\ r_mentions r = JNull /\ r_links r = JNull /\
        r_link_count r = JNum 0
    | Some bs =>
        exists blks a,
          py_iter bs = Ok blks /\
          for_each walk_block blks walk_init = Ok a /\
          r_emojis r = JList (emoji_list a) /\
          r_mentions r = JList (mention_list a) /\
          r_links r = JList (walk_links a) /\
          r_link_count r = JNum (walk_link_count a)
    end.
Proof.
  unfold extract_row, field.
  destruct m as [| b | z | s | l | d]; simpl; try discriminate.
  intros H. exists d. split; [reflexivity|].
  unfold has_key in *.
  destruct (assoc "text" d) as [tx|]; simpl in H; [|discriminate].
  destruct (assoc "user" d) as [us|]; simpl in H; [|discriminate].
  destruct (assoc "ts" d) as [tm|]; simpl in H; [|discriminate].
  destruct (assoc "reactions" d); simpl in H;
    (destruct (assoc "parent_user_id" d); simpl in H;
     (destruct (assoc "thread_ts" d); simpl in H;
      [ destruct (assoc "reply_users" d); simpl in H;
        [ destruct (assoc "replies" d); simpl in H; [|discriminate] | ] | ];
      (destruct (assoc "blocks" d) as [bs|]; simpl in H;
       [ destruct (py_iter bs) as [blks|]; simpl in H; [|discriminate];
         destruct (for_each walk_block blks walk_init) as [a|] eqn:Hw;
         simpl in H; [|discriminate];
         injection H as <-; simpl; repeat split; exists blks, a;
         repeat split; assumption
       | injection H as <-; simpl; auto 12 ]))).
Qed.

Lemma nth_error_map_some {A B : Type} (f : A -> B) (xs : list A) (i : nat) (x : A) :
  nth_error xs i = Some x -> nth_error (map f xs) i = Some (f x).
Proof.
  intros H. rewrite nth_error_map, H. reflexivity.
Qed.

(** The row of the [i]-th kept message is the [i]-th entry of each column. *)
Lemma get_messages_dict_row (msgs : list json) (t : msg_table) (i : nat) (m : json) :
  get_messages_dict msgs = Ok t -> nth_error (kept msgs) i = Some m ->
  exists r,
    extract_row m = Ok r /\
    nth_error (msg_id t) i = Some (r_msg_id r) /\
    nth_error (text t) i = Some (r_text r) /\
    nth_error (user t) i = Some (r_user r) /\
    nth_error (ts t) i = Some (r_ts r) /\
    nth_error (reactions t) i = Some (r_reactions r) /\
    nth_error (replies_to t) i = Some (r_replies_to r) /\
    nth_error (replies t) i = Some (r_replies r) /\
    nth_error (emojis t) i = Some (r_emojis r) /\
    nth_error (mentions t) i = Some (r_mentions r) /\
    nth_error (links t) i = Some (r_links r) /\
    nth_error (link_count t) i = Some (r_link_count r).
Proof.
  intros H Hi. apply get_messages_dict_rows in H as (rs & HF & ->).
  destruct (Forall2_nth_error _ _ _ _ _ HF Hi) as (r & Hr & Hrow).
  exists r; simpl. repeat split; auto using nth_error_map_some.
Qed.

Lemma Forall2_map_eq {A B C : Type} (R : A -> B -> Prop) (f : A -> C) (g : B -> C)
  (xs : list A) (ys : list B) :
  (forall x y, R x y -> g y = f x) -> Forall2 R xs ys -> map g ys = map f xs.
Proof.
  intros Hfg H; induction H; simpl; [reflexivity|].
  f_equal; auto.
Qed.

(** ** Properties of [get_messages_dict] *)

Example get_messages_dict_sample : get_messages_dict sample_msgs = Ok sample_table.
Proof. reflexivity. Qed.

(** C10: when extraction succeeds, every column of the returned dictionary
    except [attachments] has as many entries as there are input messages
    without a ["subtype"] key, and [attachments] stays empty. *)
Theorem get_messages_dict_columns_equal_length (msgs : list json) (t : msg_table) :
  get_messages_dict msgs = Ok t ->
  let n := List.length (kept msgs) in
  List.length (msg_id t) = n /\ List.length (text t) = n /\
  List.length (user t) = n /\ List.length (mentions t) = n /\
  List.length (emojis t) = n /\ List.length (reactions t) = n /\
  List.length (replies t) = n /\ List.length (replies_to t) = n /\
  List.length (ts t) = n /\ List.length (links t) = n /\
  List.length (link_count t) = n /\ attachments t = [].
Proof.
  intros H n. apply get_messages_dict_rows in H as (rs & HF & ->).
  apply Forall2_length in HF. subst n; simpl.
  rewrite !length_map. repeat split; auto.
Qed.

Lemma get_messages_dict_columns_equal_length_witness :
  let n := List.length (kept sample_msgs) in
  List.length (msg_id sample_table) = n /\ List.length (text sample_table) = n /\
  List.length (user sample_table) = n /\ List.length (mentions sample_table) = n /\
  List.length (emojis sample_table) = n /\ List.length (reactions sample_table) = n /\
  List.length (replies sample_table) = n /\ List.length (replies_to sample_table) = n /\
  List.length (ts sample_table) = n /\ List.length (links sample_table) = n /\
  List.length (link_count sample_table) = n /\ attachments sample_table = [].
Proof.
  apply (get_messages_dict_columns_equal_length sample_msgs sample_table).
  reflexivity.
Defined.

(** The loop raises as a whole: a complete record gets no row when
    another record of the list cannot be extracted. *)
Lemma get_messages_dict_no_partial_table :
  lacks_subtype sample_plain = true /\
  py_getitem sample_plain "text" = Ok (JStr "bye") /\
  py_getitem sample_plain "user" = Ok (JStr "U2") /\
  py_getitem sample_plain "ts" = Ok (JStr "1634.0003") /\
  get_messages_dict [sample_plain; sample_no_sender] = Err (KeyError "user").
Proof. repeat split. Qed.

(** C2, amended: whenever extraction succeeds on a list of messages, the
    identifier, text, sender and timestamp columns of the table hold one
    entry per input message without a ["subtype"] key, in input order,
    taken from that message (the identifier is [None] when the message has
    none); a message with a ["subtype"] key contributes no entry. *)
Theorem get_messages_dict_one_row_per_kept_message (msgs : list json) (t : msg_table) :
  get_messages_dict msgs = Ok t ->
  msg_id t = map (field "client_msg_id") (kept msgs) /\
  text t = map (field "text") (kept msgs) /\
  user t = map (field "user") (kept msgs) /\
  ts t = map (field "ts") (kept msgs) /\
  Forall (fun m => exists tx us tm,
                     py_getitem m "text" = Ok tx /\
                     py_getitem m "user" = Ok us /\
                     py_getitem m "ts" = Ok tm) (kept msgs).
Proof.
  intros H. apply get_messages_dict_rows in H as (rs & HF & ->). simpl.
  assert (Hinv : forall m r, extract_row m = Ok r ->
            r_msg_id r = field "client_msg_id" m /\
            r_text r = field "text" m /\ r_user r = field "user" m /\
            r_ts r = field "ts" m /\
            exists tx us tm, py_getitem m "text" = Ok tx /\
              py_getitem m "user" = Ok us /\ py_getitem m "ts" = Ok tm).
  { intros m r Hr.
    apply extract_row_inv in Hr as (d & -> & Hid & Htx & Hus & Htm & _).
    unfold field in *; simpl. rewrite Htx, Hus, Htm; simpl.
    repeat split; auto. now exists (r_text r), (r_user r), (r_ts r). }
  repeat split.
  1-4: refine (Forall2_map_eq _ _ _ _ _ _ HF);
       intros m r Hr; now apply Hinv in Hr.
  clear -HF Hinv. induction HF; constructor; auto.
  apply Hinv in H. tauto.
Qed.

Lemma get_messages_dict_one_row_per_kept_message_witness :
  msg_id sample_table = map (field "client_msg_id") (kept sample_msgs) /\
  text sample_table = map (field "text") (kept sample_msgs) /\
  user sample_table = map (field "user") (kept sample_msgs) /\
  ts sample_table = map (field "ts") (kept sample_msgs) /\
  Forall (fun m => exists tx us tm,
                     py_getitem m "text" = Ok tx /\
                     py_getitem m "user" = Ok us /\
                     py_getitem m "ts" = Ok tm) (kept sample_msgs).
Proof.
  apply (get_messages_dict_one_row_per_kept_message sample_msgs sample_table).
  reflexivity.
Defined.

(** C7: the row of a message that has neither a ["subtype"] nor a
    ["blocks"] key has [None] in the mentions, emojis and links columns and
    0 in the link count column. *)
Theorem get_messages_dict_no_blocks_defaults (msgs : list json) (t : msg_table)
  (i : nat) (m : json) :
  get_messages_dict msgs = Ok t ->
  nth_error (kept msgs) i = Some m ->
  py_contains "blocks" m = Ok false ->
  nth_error (mentions t) i = Some JNull /\
  nth_error (emojis t) i = Some JNull /\
  nth_error (links t) i = Some JNull /\
  nth_error (link_count t) i = Some (JNum 0).
Proof.
  intros H Hi Hb.
  destruct (get_messages_dict_row _ _ _ _ H Hi)
    as (r & Hr & _ & _ & _ & _ & _ & _ & _ & He & Hm & Hl & Hc).
  apply extract_row_inv in Hr as (d & -> & _ & _ & _ & _ & _ & _ & _ & Hblocks).
  simpl in Hb. unfold has_key in Hb.
  destruct (assoc "blocks" d); [discriminate|].
  destruct Hblocks as (-> & -> & -> & ->) in He, Hm, Hl, Hc. auto.
Qed.

Lemma get_messages_dict_no_blocks_defaults_witness :
  nth_error (mentions sample_table) 1 = Some JNull /\
  nth_error (emojis sample_table) 1 = Some JNull /\
  nth_error (links sample_table) 1 = Some JNull /\
  nth_error (link_count sample_table) 1 = Some (JNum 0).
Proof.
  apply (get_messages_dict_no_blocks_defaults sample_msgs sample_table 1 sample_plain);
    reflexivity.
Defined.

(** C1: the row of a message that has a ["blocks"] key lists, in walk
    order, the user ids of exactly the sub-elements tagged ["user"], the
    names of exactly those tagged ["emoji"] and the urls of exactly those
    tagged ["link"], and its link count is the length of its link list. *)
Theorem get_messages_dict_blocks_fields (msgs : list json) (t : msg_table)
  (i : nat) (m : json) :
  get_messages_dict msgs = Ok t ->
  nth_error (kept msgs) i = Some m ->
  py_contains "blocks" m = Ok true ->
  exists mention_l emoji_l link_l,
    mention_l = map (field "user_id") (filter (tagged "user") (sub_elements m)) /\
    emoji_l = map (field "name") (filter (tagged "emoji") (sub_elements m)) /\
    link_l = map (field "url") (filter (tagged "link") (sub_elements m)) /\
    nth_error (mentions t) i = Some (JList mention_l) /\
    nth_error (emojis t) i = Some (JList emoji_l) /\
    nth_error (links t) i = Some (JList link_l) /\
    nth_error (link_count t) i = Some (JNum (Z.of_nat (List.length link_l))).
Proof.
  intros H Hi Hb.
  destruct (get_messages_dict_row _ _ _ _ H Hi)
    as (r & Hr & _ & _ & _ & _ & _ & _ & _ & He & Hm & Hl & Hc).
  apply extract_row_inv in Hr as (d & -> & _ & _ & _ & _ & _ & _ & _ & Hblocks).
  simpl in Hb. unfold has_key in Hb.
  destruct (assoc "blocks" d) as [bs|] eqn:Hbs; [|discriminate].
  destruct Hblocks as (blks & a & Hit & Hw & Hre & Hrm & Hrl & Hrc).
  apply walk_blocks_extend in Hw.
  assert (Hsub : sub_elements (JDict d) = flat_map children (flat_map children blks)).
  { unfold sub_elements, blocks_of; simpl. now rewrite Hbs; simpl; rewrite Hit. }
  rewrite Hsub. do 3 eexists. do 3 (split; [reflexivity|]).
  rewrite He, Hm, Hl, Hc, Hre, Hrm, Hrl, Hrc, Hw. simpl.
  rewrite length_map. auto.
Qed.

Lemma get_messages_dict_blocks_fields_witness :
  exists mention_l emoji_l link_l,
    mention_l = map (field "user_id") (filter (tagged "user") (sub_elements sample_rich)) /\
    emoji_l = map (field "name") (filter (tagged "emoji") (sub_elements sample_rich)) /\
    link_l = map (field "url") (filter (tagged "link") (sub_elements sample_rich)) /\
    nth_error (mentions sample_table) 0 = Some (JList mention_l) /\
    nth_error (emojis sample_table) 0 = Some (JList emoji_l) /\
    nth_error (links sample_table) 0 = Some (JList link_l) /\
    nth_error (link_count sample_table) 0 = Some (JNum (Z.of_nat (List.length link_l))).
Proof.
  apply (get_messages_dict_blocks_fields sample_msgs sample_table 0 sample_rich);
    reflexivity.
Defined.

(** *** Missing fields *)

(** A record without ["text"] makes the extractor raise: line 108 reads
    [msg["text"]] outside any [try]. *)
Lemma get_messages_dict_missing_text_raises :
  py_contains "subtype" sample_no_text = Ok false /\
  get_messages_dict [sample_no_text] = Err (KeyError "text").
Proof. split; reflexivity. Qed.

(** The three fields read without a guard are required. *)
Lemma get_messages_dict_required_fields (d : list (string * json)) (k : string) :
  assoc "subtype" d = None ->
  (k = "text" \/ k = "user" \/ k = "ts") -> assoc k d = None ->
  exists k', get_messages_dict [JDict d] = Err (KeyError k').
Proof.
  intros Hs Hk Hnone. unfold get_messages_dict; simpl.
  rewrite process_message_row; simpl. unfold has_key. rewrite Hs; simpl.
  unfold extract_row; simpl.
  destruct (assoc "text" d) eqn:Htx; simpl; [|eauto].
  destruct (assoc "user" d) eqn:Hus; simpl; [|eauto].
  destruct (assoc "ts" d) eqn:Htm; simpl; [|eauto].
  destruct Hk as [-> | [-> | ->]]; congruence.
Qed.

(** Line 122 tests ["reply_users"] and line 123 reads ["replies"]: a thread
    parent that has the first without the second raises. *)
Example get_messages_dict_reply_users_without_replies :
  get_messages_dict [sample_thread_parent] = Err (KeyError "replies").
Proof. reflexivity. Qed.

(** C5, amended: a record without ["subtype"] that carries text, sender and
    timestamp, that carries ["replies"] whenever it carries both
    ["thread_ts"] and ["reply_users"], and whose layout blocks, when
    present, can be walked, does not make the extractor raise: where its
    identifier, reactions, parent pointer, thread fields or layout blocks
    are missing, the row holds [None] for the missing field (0 for the link
    count).  The record with ["thread_ts"] and ["reply_users"] but without
    ["replies"] is left out: it is the one of
    [get_messages_dict_reply_users_without_replies]. *)
Theorem get_messages_dict_optional_fields_default (d : list (string * json)) :
  assoc "subtype" d = None ->
  has_key "text" d = true -> has_key "user" d = true -> has_key "ts" d = true ->
  (has_key "thread_ts" d = true -> has_key "reply_users" d = true ->
   has_key "replies" d = true) ->
  (forall bs, assoc "blocks" d = Some bs -> exists a, walk_blocks bs = Ok a) ->
  exists t,
    get_messages_dict [JDict d] = Ok t /\
    msg_id t = [field "client_msg_id" (JDict d)] /\
    text t = [field "text" (JDict d)] /\
    user t = [field "user" (JDict d)] /\
    ts t = [field "ts" (JDict d)] /\
    reactions t = [field "reactions" (JDict d)] /\
    replies_to t =
      [if has_key "parent_user_id" d then field "ts" (JDict d) else JNull] /\
    replies t =
      [if has_key "thread_ts" d && has_key "reply_users" d
       then field "replies" (JDict d) else JNull] /\
    (assoc "blocks" d = None ->
     emojis t = [JNull] /\ mentions t = [JNull] /\ links t = [JNull] /\
     link_count t = [JNum 0]).
Proof.
  unfold has_key, walk_blocks, field. intros Hs Htx Hus Htm Hrep Hblk.
  unfold get_messages_dict; simpl.
  rewrite process_message_row; simpl. unfold has_key. rewrite Hs; simpl.
  unfold extract_row; simpl. unfold has_key.
  destruct (assoc "text" d) as [tx|]; [simpl | discriminate].
  destruct (assoc "user" d) as [us|]; [simpl | discriminate].
  destruct (assoc "ts" d) as [tm|]; [simpl | discriminate].
  destruct (assoc "reactions" d); simpl;
    (destruct (assoc "parent_user_id" d); simpl;
     (destruct (assoc "thread_ts" d); simpl in *;
      [ destruct (assoc "reply_users" d); simpl in *;
        [ destruct (assoc "replies" d); simpl;
          [|now specialize (Hrep eq_refl eq_refl)] | ] | ];
      (destruct (assoc "blocks" d) as [bs|]; simpl;
       [ destruct (Hblk bs eq_refl) as (a & Ha);
         destruct (py_iter bs) as [blks|]; simpl in *; [|discriminate];
         rewrite Ha; simpl; eexists; split; [reflexivity|];
         simpl; repeat split; discriminate
       | eexists; split; [reflexivity|]; simpl; repeat split ]))).
Qed.

Lemma get_messages_dict_optional_fields_default_witness :
  exists t,
    get_messages_dict [sample_plain] = Ok t /\
    msg_id t = [JNull] /\ text t = [JStr "bye"] /\ user t = [JStr "U2"] /\
    ts t = [JStr "1634.0003"] /\ reactions t = [JNull] /\
    replies_to t = [JNull] /\ replies t = [JNull] /\
    (assoc "blocks" [("text", JStr "bye"); ("user", JStr "U2");
                     ("ts", JStr "1634.0003")] = None ->
     emojis t = [JNull] /\ mentions t = [JNull] /\ links t = [JNull] /\
     link_count t = [JNum 0]).
Proof.
  apply (get_messages_dict_optional_fields_default
           [("text", JStr "bye"); ("user", JStr "U2"); ("ts", JStr "1634.0003")]);
    try reflexivity; simpl; discriminate.
Defined.

(** ** Properties of [from_msg_get_replies] *)

(** The second reply of [sample_broken_thread] cannot be tagged; the first
    one has been appended by then and is returned. *)
Lemma from_msg_get_replies_partial_result :
  tag_reply sample_broken_thread [] (JNum 5) = Err TypeError /\
  from_msg_get_replies sample_broken_thread =
    Ok [JDict [("user", JStr "U2"); ("ts", JStr "1634.0006");
               ("thread_ts", JStr "1634.0005"); ("message_id", JStr "m5")]].
Proof. split; reflexivity. Qed.

Lemma for_each_try_tag (d : list (string * json)) (th mid : json)
  (items acc : list json) :
  assoc "thread_ts" d = Some th -> assoc "client_msg_id" d = Some mid ->
  for_each_try (tag_reply (JDict d)) items acc =
  acc ++ map (fun r => JDict (dict_set "message_id" mid (dict_set "thread_ts" th r)))
           (record_prefix items).
Proof.
  intros Hth Hmid. revert acc.
  induction items as [|x items IH]; intros acc; simpl.
  - now rewrite app_nil_r.
  - unfold tag_reply at 1; simpl. rewrite Hth, Hmid; simpl.
    destruct x; simpl; try (now rewrite app_nil_r).
    rewrite IH, <- app_assoc. reflexivity.
Qed.

Lemma for_each_try_no_identifier (d : list (string * json)) (items : list json) :
  assoc "client_msg_id" d = None ->
  for_each_try (tag_reply (JDict d)) items [] = [].
Proof.
  intros Hmid. destruct items as [|x items]; simpl; [reflexivity|].
  unfold tag_reply; simpl. rewrite Hmid.
  destruct (assoc "thread_ts" d); simpl; [|reflexivity].
  destruct x; reflexivity.
Qed.

Lemma for_each_try_not_records (d : list (string * json)) (items : list json) :
  Forall (fun x => forall r, x <> JDict r) items ->
  for_each_try (tag_reply (JDict d)) items [] = [].
Proof.
  intros H. destruct H as [|x items Hx _]; simpl; [reflexivity|].
  unfold tag_reply; simpl.
  destruct (assoc "thread_ts" d); simpl; [|reflexivity].
  destruct x; try reflexivity. now contradiction (Hx d0).
Qed.

(** C4, amended: on a record the reply extractor never raises.  It returns
    the empty list when the thread marker, the reply list or the parent's
    identifier is missing or the reply list is not a list; otherwise it
    returns the tagged replies up to the first one that cannot be
    processed, so a failure partway keeps the replies already appended. *)
Theorem from_msg_get_replies_tagged_prefix (d : list (string * json)) :
  from_msg_get_replies (JDict d) = Ok (tagged_replies d).
Proof.
  unfold from_msg_get_replies, tagged_replies; simpl. unfold has_key.
  destruct (assoc "thread_ts" d) as [th|] eqn:Hth; simpl; [|reflexivity].
  destruct (assoc "replies" d) as [rp|] eqn:Hrp; simpl; [|reflexivity].
  destruct (assoc "client_msg_id" d) as [mid|] eqn:Hmid.
  - destruct rp as [| b | z | s | items | kvs]; simpl; try reflexivity.
    + rewrite for_each_try_not_records; [reflexivity|].
      clear. induction s; simpl; constructor; auto; discriminate.
    + now rewrite (for_each_try_tag d th mid).
    + rewrite for_each_try_not_records; [reflexivity|].
      clear. induction kvs; simpl; constructor; auto; discriminate.
  - destruct (py_iter rp) as [items|] eqn:Hit; simpl.
    + rewrite for_each_try_no_identifier by assumption.
      now destruct rp.
    + now destruct rp.
Qed.

(** ** Dictionaries with hashable keys *)

Lemma key_eqb_sym (a b : json) : key_eqb a b = key_eqb b a.
Proof.
  destruct a, b; simpl; try reflexivity.
  - now destruct b, b0.
  - apply Z.eqb_sym.
  - apply String.eqb_sym.
Qed.

Lemma key_eqb_trans (a b c : json) :
  key_eqb a b = true -> key_eqb a c = key_eqb b c.
Proof.
  destruct a as [| x | x | x | |], b as [| y | y | y | |]; simpl;
    try discriminate; intros H; try reflexivity.
  - apply Bool.eqb_prop in H. now subst.
  - apply Z.eqb_eq in H. subst. destruct c as [| b | z | | |]; try reflexivity.
    + now destruct x, b.
    + apply Z.eqb_sym.
  - apply Z.eqb_eq in H. subst. destruct c as [| b | z | | |]; try reflexivity.
    + now destruct y, b.
    + apply Z.eqb_sym.
  - apply Z.eqb_eq in H. now subst.
  - apply String.eqb_eq in H. now subst.
Qed.

Lemma pd_get_eqb {V : Type} (a b : json) (d : pydict V) :
  key_eqb a b = true -> pd_get a d = pd_get b d.
Proof.
  intros H. induction d as [|[k v] d IH]; simpl; [reflexivity|].
  now rewrite (key_eqb_trans a b k H), IH.
Qed.

Lemma pd_get_set {V : Type} (k x : json) (v : V) (d : pydict V) :
  pd_get k (pd_set x v d) = if key_eqb k x then Some v else pd_get k d.
Proof.
  induction d as [|[k' v'] d IH]; simpl; [reflexivity|].
  destruct (key_eqb x k') eqn:Hx; simpl.
  - destruct (key_eqb k x) eqn:Hk.
    + now rewrite (key_eqb_trans k x k' Hk), Hx.
    + destruct (key_eqb k k') eqn:Hk'; [|reflexivity].
      pose proof (key_eqb_trans x k' k Hx) as E.
      rewrite (key_eqb_sym x k), (key_eqb_sym k' k) in E. congruence.
  - destruct (key_eqb k k') eqn:Hk'; [|exact IH].
    destruct (key_eqb k x) eqn:Hk; [|reflexivity].
    rewrite (key_eqb_trans k x k' Hk) in Hk'. congruence.
Qed.

(** ** Properties of the [Counter] aggregations *)

Lemma flatten_non_null_items (col acc us : list json) :
  for_each (fun acc r =>
              match r with
              | JNull => Ok acc
              | _ => us <- py_iter r ;; Ok (acc ++ us)
              end) col acc = Ok us ->
  us = acc ++ flat_map entry_items col.
Proof.
  revert acc; induction col as [|r col IH]; intros acc H; simpl in *.
  - injection H as <-. now rewrite app_nil_r.
  - bind_inv H. apply IH in H. subst us. rewrite app_assoc. f_equal.
    destruct r; simpl in *; try discriminate;
      injection Hx as <-; rewrite ?app_nil_r; reflexivity.
Qed.

(** After counting [xs] into [c], a key maps to its old count plus the
    number of elements of [xs] equal to it. *)
Lemma for_each_count_element (xs : list json) (c c' : pydict Z) (k : json) :
  for_each count_element xs c = Ok c' ->
  pd_get k c' =
    let n := Z.of_nat (List.length (filter (key_eqb k) xs)) in
    match pd_get k c with
    | Some m => if n =? 0 then Some m else Some (m + n)
    | None => if n =? 0 then None else Some n
    end.
Proof.
  revert c; induction xs as [|x xs IH]; intros c H; simpl in *.
  - injection H as <-. now destruct (pd_get k c).
  - bind_inv H. unfold count_element, pd_setitem in Hx.
    destruct (hashable x); [|discriminate]. injection Hx as <-.
    rewrite (IH _ H), pd_get_set. clear IH H.
    destruct (key_eqb k x) eqn:Hk; simpl.
    + rewrite <- (pd_get_eqb k x c Hk).
      set (n := List.length (filter (key_eqb k) xs)).
      destruct (pd_get k c) as [m|];
        destruct (Z.of_nat n =? 0) eqn:Hn;
        [apply Z.eqb_eq in Hn | apply Z.eqb_neq in Hn
        |apply Z.eqb_eq in Hn | apply Z.eqb_neq in Hn];
        destruct (Z.pos (Pos.of_succ_nat n) =? 0) eqn:Hs;
        try (apply Z.eqb_eq in Hs; lia); f_equal; lia.
    + reflexivity.
Qed.

(** Line 54 counts, for every user identifier, its occurrences across the
    non-null entries of the replies column. *)
Lemma replies_count_dict_occurrences (df : msg_table) (c : pydict Z) (u : string) :
  replies_count_dict df = Ok c ->
  pd_get (JStr u) c =
    if (occurrences u (replies df) =? 0)%nat then None
    else Some (Z.of_nat (occurrences u (replies df))).
Proof.
  unfold replies_count_dict, flatten_non_null, Counter. intros H.
  bind_inv H. apply flatten_non_null_items in Hx. simpl in Hx. subst x.
  rewrite (for_each_count_element _ _ _ (JStr u) H). simpl.
  unfold occurrences.
  assert (Hf : forall xs, filter (key_eqb (JStr u)) xs =
                          filter (fun x => py_eq_str x u) xs).
  { intros xs. apply filter_ext. intros [ | | | s | | ]; simpl; try reflexivity.
    apply String.eqb_sym. }
  rewrite Hf.
  set (n := List.length _).
  destruct (Nat.eqb_spec n 0) as [->|Hn]; [reflexivity|].
  destruct (Z.eqb_spec (Z.of_nat n) 0); [lia | reflexivity].
Qed.

(** Where the aggregator returns, the reply count of every user
    identifier is the number of times the identifier occurs as an element
    across the non-null entries of the replies column; an identifier that
    does not occur has no entry. *)
Theorem get_msgs_df_info_reply_counts
  (value_counts groupby_sum : msg_table -> result (pydict Z)) (df : msg_table)
  (msgs_c replies_c mentions_c links_c : pydict Z) (u : string) :
  get_msgs_df_info value_counts groupby_sum df =
    Ok (msgs_c, replies_c, mentions_c, links_c) ->
  pd_get (JStr u) replies_c =
    if (occurrences u (replies df) =? 0)%nat then None
    else Some (Z.of_nat (occurrences u (replies df))).
Proof.
  unfold get_msgs_df_info. intros H.
  bind_inv H. bind_inv H. bind_inv H. bind_inv H.
  injection H as _ <- _ _.
  now apply replies_count_dict_occurrences.
Qed.

Lemma get_msgs_df_info_reply_counts_witness :
  pd_get (JStr "U1") [(JStr "U1", 2); (JStr "U2", 1)] =
    if (occurrences "U1" (replies sample_replies_table) =? 0)%nat then None
    else Some (Z.of_nat (occurrences "U1" (replies sample_replies_table))).
Proof.
  apply (get_msgs_df_info_reply_counts (fun _ => Ok []) (fun _ => Ok [])
           sample_replies_table [] [(JStr "U1", 2); (JStr "U2", 1)] [] [] "U1").
  reflexivity.
Defined.


(** ** Properties of [map_userid_2_realname] *)

Lemma insert_desc_perm (r : json * Z) (rows : list (json * Z)) :
  Permutation (insert_desc r rows) (r :: rows).
Proof.
  induction rows as [|r' rows IH]; simpl; [reflexivity|].
  destruct (snd r' <=? snd r); [reflexivity|].
  rewrite IH. apply perm_swap.
Qed.

Lemma sort_values_desc_perm (rows : list (json * Z)) :
  Permutation (sort_values_desc rows) rows.
Proof.
  induction rows as [|r rows IH]; simpl; [reflexivity|].
  now rewrite insert_desc_perm, IH.
Qed.

Lemma insert_desc_sorted (r : json * Z) (rows : list (json * Z)) :
  Sorted desc rows -> Sorted desc (insert_desc r rows).
Proof.
  induction rows as [|r' rows IH]; simpl; intros H.
  - repeat constructor.
  - destruct (Z.leb_spec (snd r') (snd r)) as [Hle|Hgt].
    + constructor; [assumption|]. constructor. exact Hle.
    + inversion H as [|? ? Hs Hhd]; subst.
      constructor; [now apply IH|].
      destruct rows as [|r'' rows]; simpl.
      * constructor. unfold desc. lia.
      * destruct (snd r'' <=? snd r); constructor.
        -- unfold desc. lia.
        -- now inversion Hhd.
Qed.

Lemma sort_values_desc_sorted (rows : list (json * Z)) :
  Sorted desc (sort_values_desc rows).
Proof.
  induction rows as [|r rows IH]; simpl; [constructor|].
  now apply insert_desc_sorted.
Qed.

Lemma comm_get_in (i : string) (comm_dict : list (string * Z)) :
  In i (map fst comm_dict) -> exists c, comm_get i comm_dict = Some c.
Proof.
  induction comm_dict as [|[k c] rest IH]; simpl; [tauto|].
  intros [->|H].
  - rewrite String.eqb_refl. eauto.
  - destruct (String.eqb i k); eauto.
Qed.

(** The loop of lines 292-294 stores the resolved pairs one by one. *)
Lemma store_loop_resolved (user_dict : list (string * json))
  (comm_dict : list (string * Z)) (ids : list string) (ac ac' : pydict Z) :
  for_each (store_step user_dict comm_dict) ids ac = Ok ac' ->
  ac' = fold_left (fun d nc => pd_set (fst nc) (snd nc) d)
          (flat_map (fun i => match assoc i user_dict, comm_get i comm_dict with
                              | Some n, Some c => [(n, c)]
                              | _, _ => []
                              end) ids) ac.
Proof.
  revert ac; induction ids as [|i ids IH]; intros ac H; simpl in *.
  - now injection H as <-.
  - bind_inv H. apply IH in H. subst ac'. rewrite fold_left_app. f_equal.
    unfold store_step, has_key in Hx.
    destruct (assoc i user_dict) as [n|]; simpl in Hx.
    + destruct (comm_get i comm_dict) as [c|]; simpl in Hx; [|discriminate].
      unfold pd_setitem in Hx. destruct (hashable n); [|discriminate].
      now injection Hx as <-.
    + now injection Hx as <-.
Qed.

Lemma store_mapping_resolved (user_dict : list (string * json))
  (comm_dict : list (string * Z)) (ac : pydict Z) :
  store_mapping user_dict comm_dict = Ok ac ->
  ac = fold_left (fun d nc => pd_set (fst nc) (snd nc) d)
         (resolved user_dict comm_dict) [].
Proof. apply store_loop_resolved. Qed.

Lemma map_userid_2_realname_inv (up : user_profile) (comm_dict : list (string * Z))
  (user_dict : list (string * json)) :
  directory up = Ok user_dict ->
  map_userid_2_realname up comm_dict =
  (ac <- store_mapping user_dict comm_dict ;; Ok (sort_values_desc ac)).
Proof.
  unfold directory, map_userid_2_realname. intros H.
  destruct (collect_real_names (up_profile up)); simpl in *; [|discriminate].
  destruct (build_user_dict a (up_id up)); simpl in *; [|discriminate].
  now injection H as <-.
Qed.

Lemma key_eqb_refl (k : json) : hashable k = true -> key_eqb k k = true.
Proof.
  destruct k; simpl; try discriminate; intros _.
  - reflexivity.
  - now destruct b.
  - apply Z.eqb_refl.
  - apply String.eqb_refl.
Qed.

Lemma pd_set_in {V : Type} (x : json) (v : V) (d : pydict V) (k : json) (w : V) :
  hashable x = true -> In (k, w) (pd_set x v d) ->
  In (k, w) d \/ (w = v /\ key_eqb x k = true).
Proof.
  intros Hh. induction d as [|[k' v'] d IH]; simpl.
  - intros [H|[]]. injection H as <- <-. right. auto using key_eqb_refl.
  - destruct (key_eqb x k') eqn:Hx; simpl.
    + intros [H|H]; [|tauto]. injection H as <- <-. auto.
    + intros [H|H]; [tauto|]. apply IH in H. tauto.
Qed.

Lemma comm_get_filter (user_dict : list (string * json)) (i : string)
  (comm_dict : list (string * Z)) :
  has_key i user_dict = true ->
  comm_get i (filter (fun kv => has_key (fst kv) user_dict) comm_dict) =
  comm_get i comm_dict.
Proof.
  intros Hi. induction comm_dict as [|[k c] rest IH]; simpl; [reflexivity|].
  destruct (has_key k user_dict) eqn:Hk; simpl.
  - now rewrite IH.
  - destruct (String.eqb_spec i k) as [->|_]; [congruence | exact IH].
Qed.

(** An identifier the directory does not know leaves the loop state as it
    is; the other identifiers do not see whether it is in the mapping. *)
Lemma store_loop_filter (user_dict : list (string * json))
  (comm_dict l : list (string * Z)) (ac : pydict Z) :
  for_each (store_step user_dict comm_dict) (map fst l) ac =
  for_each (store_step user_dict
              (filter (fun kv => has_key (fst kv) user_dict) comm_dict))
    (map fst (filter (fun kv => has_key (fst kv) user_dict) l)) ac.
Proof.
  revert ac; induction l as [|[k c] l IH]; intros ac; simpl; [reflexivity|].
  destruct (has_key k user_dict) eqn:Hk; simpl.
  - unfold store_step at 1 3. rewrite Hk, (comm_get_filter _ _ _ Hk).
    destruct (assoc k user_dict); simpl; [|reflexivity].
    destruct (comm_get k comm_dict); simpl; [|reflexivity].
    destruct (pd_setitem j z ac); simpl; [apply IH | reflexivity].
  - unfold store_step at 1. rewrite Hk. simpl. apply IH.
Qed.

Lemma store_loop_rows (user_dict : list (string * json))
  (comm_dict : list (string * Z)) (ids : list string) (ac ac' : pydict Z)
  (Q : json -> Z -> Prop) :
  (forall i n n' c, assoc i user_dict = Some n -> comm_get i comm_dict = Some c ->
                    key_eqb n n' = true -> Q n' c) ->
  for_each (store_step user_dict comm_dict) ids ac = Ok ac' ->
  (forall k v, In (k, v) ac -> Q k v) ->
  forall k v, In (k, v) ac' -> Q k v.
Proof.
  intros HQ. revert ac; induction ids as [|i ids IH]; intros ac H Hac; simpl in H.
  - now injection H as <-.
  - bind_inv H. apply (IH _ H). clear IH H.
    unfold store_step, has_key in Hx.
    destruct (assoc i user_dict) as [n|] eqn:Hn; simpl in Hx.
    + destruct (comm_get i comm_dict) as [c|] eqn:Hc; simpl in Hx; [|discriminate].
      unfold pd_setitem in Hx. destruct (hashable n) eqn:Hh; [|discriminate].
      injection Hx as <-. intros k v Hin.
      apply pd_set_in in Hin as [Hin|[-> Hk]]; eauto.
    + now injection Hx as <-.
Qed.

Lemma assoc_in (k : string) (d : list (string * json)) (v : json) :
  assoc k d = Some v -> exists k', In (k', v) d.
Proof.
  induction d as [|[k' v'] d IH]; simpl; [discriminate|].
  destruct (String.eqb k k').
  - intros H; injection H as <-. eauto.
  - intros H. destruct (IH H) as (k'' & Hin). eauto.
Qed.

(** With display names that can be dictionary keys, the loop of lines
    292-294 runs to its end. *)
Lemma store_loop_total (user_dict : list (string * json))
  (comm_dict : list (string * Z)) (ids : list string) (ac : pydict Z) :
  Forall (fun kv => hashable (snd kv) = true) user_dict ->
  (forall i, In i ids -> In i (map fst comm_dict)) ->
  exists ac', for_each (store_step user_dict comm_dict) ids ac = Ok ac'.
Proof.
  intros Hh. revert ac; induction ids as [|i ids IH]; intros ac Hids; simpl.
  - eauto.
  - assert (Hstep : exists ac1, store_step user_dict comm_dict ac i = Ok ac1).
    { unfold store_step, has_key.
      destruct (assoc i user_dict) as [n|] eqn:Hn; simpl; [|eauto].
      destruct (comm_get_in i comm_dict (Hids i (or_introl eq_refl))) as (c & ->).
      simpl. unfold pd_setitem.
      destruct (assoc_in _ _ _ Hn) as (k' & Hin).
      rewrite Forall_forall in Hh. specialize (Hh _ Hin). simpl in Hh.
      rewrite Hh. eauto. }
    destruct Hstep as (ac1 & ->). simpl. apply IH.
    intros j Hj. apply Hids. now right.
Qed.

(** C8: an identifier of the count mapping that the directory does not
    know is dropped without an exception: the resolver behaves as if the
    mapping did not hold it, every row it returns carries the count of an
    identifier the directory knows, under that identifier's name, and with
    display names that can be dictionary keys it returns whatever
    identifiers the count mapping holds. *)
Theorem map_userid_2_realname_drops_unknown (up : user_profile)
  (comm_dict : list (string * Z)) (user_dict : list (string * json)) :
  directory up = Ok user_dict ->
  map_userid_2_realname up comm_dict =
    map_userid_2_realname up
      (filter (fun kv => has_key (fst kv) user_dict) comm_dict) /\
  (forall rows n c,
     map_userid_2_realname up comm_dict = Ok rows -> In (n, c) rows ->
     exists i n', assoc i user_dict = Some n' /\ key_eqb n' n = true /\
                  comm_get i comm_dict = Some c) /\
  (Forall (fun kv => hashable (snd kv) = true) user_dict ->
   exists rows, map_userid_2_realname up comm_dict = Ok rows).
Proof.
  intros Hd. rewrite !(map_userid_2_realname_inv up _ user_dict Hd).
  split; [|split].
  - unfold store_mapping. now rewrite store_loop_filter.
  - intros rows n c H Hin. bind_inv H. injection H as <-.
    apply (Permutation_in _ (sort_values_desc_perm x)) in Hin.
    unfold store_mapping in Hx.
    refine (store_loop_rows user_dict comm_dict _ [] x
              (fun n c => exists i n', assoc i user_dict = Some n' /\
                                       key_eqb n' n = true /\
                                       comm_get i comm_dict = Some c)
              _ Hx _ n c Hin).
    + intros i m m' v Hm Hv Hk. now exists i, m.
    + intros k v [].
  - intros Hh. unfold store_mapping.
    destruct (store_loop_total user_dict comm_dict (map fst comm_dict) [] Hh)
      as (ac & ->); [auto|].
    simpl. eauto.
Qed.

Lemma map_userid_2_realname_drops_unknown_witness :
  map_userid_2_realname sample_profile_two sample_comm_unknown =
    map_userid_2_realname sample_profile_two
      (filter (fun kv => has_key (fst kv) sample_directory_two) sample_comm_unknown) /\
  (forall rows n c,
     map_userid_2_realname sample_profile_two sample_comm_unknown = Ok rows ->
     In (n, c) rows ->
     exists i n', assoc i sample_directory_two = Some n' /\ key_eqb n' n = true /\
                  comm_get i sample_comm_unknown = Some c) /\
  (Forall (fun kv => hashable (snd kv) = true) sample_directory_two ->
   exists rows, map_userid_2_realname sample_profile_two sample_comm_unknown = Ok rows).
Proof.
  apply (map_userid_2_realname_drops_unknown sample_profile_two
           sample_comm_unknown sample_directory_two).
  reflexivity.
Defined.

Example map_userid_2_realname_unknown_sample :
  map_userid_2_realname sample_profile_two sample_comm_unknown =
  Ok [(JStr "Bob", 4); (JStr "Ann", 3)].
Proof. reflexivity. Qed.

Lemma pd_get_app {V : Type} (k : json) (d d' : pydict V) :
  pd_get k (d ++ d') =
  match pd_get k d with
  | Some v => Some v
  | None => pd_get k d'
  end.
Proof.
  induction d as [|[k' v'] d IH]; simpl; [reflexivity|].
  destruct (key_eqb k k'); [reflexivity | exact IH].
Qed.

(** Storing items one by one: a key ends up with the value of the last
    item that has it. *)
Lemma fold_pd_set_get {V : Type} (items d : pydict V) (k : json) :
  pd_get k (fold_left (fun d nc => pd_set (fst nc) (snd nc) d) items d) =
  match pd_get k (rev items) with
  | Some v => Some v
  | None => pd_get k d
  end.
Proof.
  revert d; induction items as [|[x v] items IH]; intros d; simpl; [reflexivity|].
  rewrite IH, pd_get_app, pd_get_set. simpl.
  destruct (pd_get k (rev items)); [reflexivity|].
  now destruct (key_eqb k x).
Qed.

Lemma pd_set_keys {V : Type} (P : json -> Prop) (x : json) (v : V) (d : pydict V) :
  P x -> Forall (fun e => P (fst e)) d -> Forall (fun e => P (fst e)) (pd_set x v d).
Proof.
  intros Hx H. induction H as [|[k' v'] d Hk Hd IH]; simpl.
  - repeat constructor. exact Hx.
  - destruct (key_eqb x k'); constructor; simpl in *; auto.
Qed.

Lemma pd_set_distinct {V : Type} (x : json) (v : V) (d : pydict V) :
  distinct_keys d -> distinct_keys (pd_set x v d).
Proof.
  induction d as [|[k' v'] d IH]; simpl; [intros _; repeat constructor|].
  intros [Hf Hd]. destruct (key_eqb x k') eqn:Hx; simpl.
  - split; assumption.
  - split; [|now apply IH].
    apply (pd_set_keys (fun k => key_eqb k' k = false)); [|exact Hf].
    now rewrite key_eqb_sym.
Qed.

Lemma fold_pd_set_distinct {V : Type} (items d : pydict V) :
  distinct_keys d ->
  distinct_keys (fold_left (fun d nc => pd_set (fst nc) (snd nc) d) items d).
Proof.
  revert d; induction items as [|[x v] items IH]; intros d Hd; simpl; [exact Hd|].
  apply IH. now apply pd_set_distinct.
Qed.

Lemma distinct_keys_perm {V : Type} (d d' : pydict V) :
  Permutation d d' -> distinct_keys d -> distinct_keys d'.
Proof.
  induction 1 as [| [k v] d d' Hp IH | [k v] [k' v'] d | d d' d'' _ IH1 _ IH2];
    simpl; auto.
  - intros [Hf Hd]. split; [|auto].
    now apply (Permutation_Forall Hp).
  - intros [Hf1 [Hf2 Hd]]. inversion Hf1 as [|? ? Hkk Hf1']; subst. simpl in Hkk.
    repeat split; auto. constructor; [|assumption].
    simpl. now rewrite key_eqb_sym.
Qed.

Lemma pd_get_fresh {V : Type} (k : json) (d : pydict V) :
  Forall (fun e => key_eqb k (fst e) = false) d -> pd_get k d = None.
Proof.
  induction 1 as [|[k' v'] d Hk _ IH]; simpl; [reflexivity|].
  simpl in Hk. now rewrite Hk.
Qed.

Lemma pd_get_perm {V : Type} (k : json) (d d' : pydict V) :
  Permutation d d' -> distinct_keys d -> pd_get k d = pd_get k d'.
Proof.
  induction 1 as [| [x v] d d' Hp IH | [x v] [x' v'] d | d d' d'' Hp1 IH1 Hp2 IH2];
    simpl; auto.
  - intros [_ Hd]. now rewrite IH.
  - intros [Hf _]. inversion Hf as [|? ? Hxx _]; subst. simpl in Hxx.
    destruct (key_eqb k x') eqn:H1, (key_eqb k x) eqn:H2; try reflexivity.
    exfalso. rewrite key_eqb_sym in H1.
    pose proof (key_eqb_trans x' k x H1) as E. congruence.
  - intros Hd. rewrite IH1 by assumption. apply IH2.
    now apply (distinct_keys_perm _ _ Hp1).
Qed.

Lemma distinct_keys_app_fresh {V : Type} (d rest : pydict V) (x : json) (v : V) :
  distinct_keys (d ++ (x, v) :: rest) ->
  Forall (fun e => key_eqb x (fst e) = false) d.
Proof.
  induction d as [|[k' v'] d IH]; simpl; [constructor|].
  intros [Hf Hd]. constructor; [|auto].
  apply Forall_app in Hf as [_ Hf]. inversion Hf; subst. simpl in *.
  now rewrite key_eqb_sym.
Qed.

Lemma pd_set_fresh {V : Type} (x : json) (v : V) (d : pydict V) :
  Forall (fun e => key_eqb x (fst e) = false) d -> pd_set x v d = d ++ [(x, v)].
Proof.
  induction 1 as [|[k' v'] d Hk _ IH]; simpl; [reflexivity|].
  simpl in Hk. now rewrite Hk, IH.
Qed.

(** Storing items with pairwise different keys keeps them all. *)
Lemma fold_pd_set_distinct_items {V : Type} (items d : pydict V) :
  distinct_keys (d ++ items) ->
  fold_left (fun d nc => pd_set (fst nc) (snd nc) d) items d = d ++ items.
Proof.
  revert d; induction items as [|[x v] items IH]; intros d H; simpl.
  - now rewrite app_nil_r.
  - rewrite (pd_set_fresh x v d) by (now apply distinct_keys_app_fresh in H).
    rewrite IH; rewrite <- app_assoc; [reflexivity | exact H].
Qed.

(** Two identifiers with one display name: the count of the first is
    overwritten at line 294 and is not in the output. *)
Lemma map_userid_2_realname_name_collision :
  directory sample_profile = Ok sample_directory /\
  assoc "U1" sample_directory = Some (JStr "Ann") /\
  comm_get "U1" sample_comm = Some 3 /\
  map_userid_2_realname sample_profile sample_comm =
    Ok [(JStr "Ann", 5); (JStr "Bob", 4)] /\
  ~ In (JStr "Ann", 3) [(JStr "Ann", 5); (JStr "Bob", 4)].
Proof.
  repeat split. intros [H|[H|[]]]; discriminate.
Qed.

(** C9, amended: the rows returned are sorted in descending order of
    count and hold one row per display name of the identifiers that the
    directory knows; a name shared by several identifiers keeps the count
    of the last of them in the count mapping.  When the display names of
    the known identifiers differ, the rows are exactly their counts re-keyed
    by display name. *)
Theorem map_userid_2_realname_rekeyed_sorted (up : user_profile)
  (comm_dict : list (string * Z)) (user_dict : list (string * json))
  (rows : list (json * Z)) :
  directory up = Ok user_dict ->
  map_userid_2_realname up comm_dict = Ok rows ->
  Sorted desc rows /\
  distinct_keys rows /\
  (forall n, pd_get n rows = pd_get n (rev (resolved user_dict comm_dict))) /\
  (distinct_keys (resolved user_dict comm_dict) ->
   Permutation rows (resolved user_dict comm_dict)).
Proof.
  intros Hd H. rewrite (map_userid_2_realname_inv up _ user_dict Hd) in H.
  bind_inv H. injection H as <-.
  apply store_mapping_resolved in Hx.
  assert (Hdist : distinct_keys x).
  { rewrite Hx. now apply fold_pd_set_distinct. }
  pose proof (sort_values_desc_perm x) as Hp.
  split; [apply sort_values_desc_sorted|].
  split; [apply (distinct_keys_perm x); [now symmetry | exact Hdist]|].
  split.
  - intros n. rewrite <- (pd_get_perm n x _ (Permutation_sym Hp) Hdist).
    rewrite Hx, fold_pd_set_get. simpl.
    now destruct (pd_get n (rev (resolved user_dict comm_dict))).
  - intros Hres. rewrite Hp, Hx.
    now rewrite (fold_pd_set_distinct_items (resolved user_dict comm_dict) []).
Qed.

Lemma map_userid_2_realname_rekeyed_sorted_witness :
  Sorted desc [(JStr "Bob", 4); (JStr "Ann", 3)] /\
  distinct_keys [(JStr "Bob", 4); (JStr "Ann", 3)] /\
  (forall n, pd_get n [(JStr "Bob", 4); (JStr "Ann", 3)] =
             pd_get n (rev (resolved sample_directory_two sample_comm_unknown))) /\
  (distinct_keys (resolved sample_directory_two sample_comm_unknown) ->
   Permutation [(JStr "Bob", 4); (JStr "Ann", 3)]
     (resolved sample_directory_two sample_comm_unknown)).
Proof.
  apply (map_userid_2_realname_rekeyed_sorted sample_profile_two
           sample_comm_unknown sample_directory_two); reflexivity.
Defined.

(** ** The calendar *)

Lemma month_day_bounds (n5 : Z) (leap : bool) :
  0 <= n5 < 365 ->
  let month := (n5 + 50) / 32 in
  let preceding := days_before_month month + b2z ((2 <? month) && leap) in
  let '(m, d) :=
    if n5 <? preceding then
      (month - 1,
       n5 - (preceding - (days_in_month (month - 1) +
                          b2z ((month - 1 =? 2) && leap))) + 1)
    else (month, n5 - preceding + 1) in
  1 <= m <= 12 /\ 1 <= d <= 31.
Proof.
  intros H5 month.
  assert (Hm : 32 * month <= n5 + 50 < 32 * month + 32).
  { subst month. pose proof (Z.div_mod (n5 + 50) 32 ltac:(lia)).
    pose proof (Z.mod_pos_bound (n5 + 50) 32 ltac:(lia)). lia. }
  clearbody month.
  assert (Hcases : month = 1 \/ month = 2 \/ month = 3 \/ month = 4 \/
                   month = 5 \/ month = 6 \/ month = 7 \/ month = 8 \/
                   month = 9 \/ month = 10 \/ month = 11 \/ month = 12) by lia.
  repeat (destruct Hcases as [-> | Hcases]); try subst month;
    destruct leap; simpl;
    match goal with |- context [?a <? ?b] => destruct (Z.ltb_spec a b) end;
    lia.
Qed.

(** Every day from 0001-01-01 to 9999-12-31 has a year, a month and a day
    within the ranges of [datetime]. *)
Lemma ord2ymd_bounds (n : Z) :
  1 <= n <= 3652059 ->
  let '(y, m, d) := ord2ymd n in
  MINYEAR <= y <= MAXYEAR /\ 1 <= m <= 12 /\ 1 <= d <= 31.
Proof.
  intros Hn. unfold ord2ymd, DI400Y, DI100Y, DI4Y, MINYEAR, MAXYEAR. cbv zeta.
  rewrite Z.shiftr_div_pow2 by lia. change (2 ^ 5) with 32.
  pose proof (Z.div_mod (n - 1) 146097 ltac:(lia)) as E1.
  pose proof (Z.mod_pos_bound (n - 1) 146097 ltac:(lia)) as B1.
  set (n400 := (n - 1) / 146097) in *. set (r1 := (n - 1) mod 146097) in *.
  pose proof (Z.div_mod r1 36524 ltac:(lia)) as E2.
  pose proof (Z.mod_pos_bound r1 36524 ltac:(lia)) as B2.
  set (n100 := r1 / 36524) in *. set (r2 := r1 mod 36524) in *.
  pose proof (Z.div_mod r2 1461 ltac:(lia)) as E3.
  pose proof (Z.mod_pos_bound r2 1461 ltac:(lia)) as B3.
  set (n4 := r2 / 1461) in *. set (r3 := r2 mod 1461) in *.
  pose proof (Z.div_mod r3 365 ltac:(lia)) as E4.
  pose proof (Z.mod_pos_bound r3 365 ltac:(lia)) as B4.
  set (n1 := r3 / 365) in *. set (n5 := r3 mod 365) in *.
  clearbody n400 r1 n100 r2 n4 r3 n1 n5.
  destruct (Z.eqb_spec n1 4) as [H1|H1]; simpl; [lia|].
  destruct (Z.eqb_spec n100 4) as [H100|H100]; simpl; [lia|].
  set (leap := (n1 =? 3) && (negb (n4 =? 24) || (n100 =? 3))). clearbody leap.
  pose proof (month_day_bounds n5 leap B4) as Hmd. cbv zeta in Hmd.
  destruct (n5 <? _); lia.
Qed.

(** ** The format *)

Lemma matches_app (p1 p2 : list (option ascii)) (s1 s2 : string) :
  matches p1 s1 = true ->
  matches (p1 ++ p2) (s1 ++ s2)%string = matches p2 s2.
Proof.
  revert s1; induction p1 as [|[l|] p1 IH]; intros s1; destruct s1 as [|c s1];
    simpl; try discriminate; [reflexivity | |];
    intros H; apply andb_prop in H as [-> H]; simpl; now apply IH.
Qed.

Lemma zfill_2_digits (n : Z) :
  0 <= n <= 99 -> matches [None; None] (zfill 2 n) = true.
Proof.
  intros Hn.
  assert (H : forallb (fun k => matches [None; None] (zfill 2 (Z.of_nat k)))
                (seq 0 100) = true) by (vm_compute; reflexivity).
  rewrite forallb_forall in H. specialize (H (Z.to_nat n)).
  rewrite Z2Nat.id in H by lia. apply H. apply in_seq. lia.
Qed.

(** A year from 1000 on is written with four digits. *)
Lemma decimal_4_digits (n : Z) :
  1000 <= n <= 9999 -> matches [None; None; None; None] (decimal n) = true.
Proof.
  intros Hn.
  assert (H : forallb (fun k => matches [None; None; None; None]
                                  (decimal (1000 + Z.of_nat k)))
                (seq 0 (Z.to_nat 9000)) = true) by (vm_compute; reflexivity).
  rewrite forallb_forall in H. specialize (H (Z.to_nat (n - 1000))).
  rewrite Z2Nat.id in H by lia.
  replace (1000 + (n - 1000)) with n in H by lia.
  apply H. apply in_seq. lia.
Qed.

(** A [datetime] object of the year 1000 or later prints in the form
    YYYY-MM-DD HH:MM:SS. *)
Lemma strftime_form (a : datetime) :
  datetime_ok a -> 1000 <= dt_year a -> timestamp_form (strftime a) = true.
Proof.
  unfold datetime_ok, MINYEAR, MAXYEAR.
  intros (Hy & Hm & Hd & Hh & Hmi & Hs) Hy'.
  unfold timestamp_form, strftime.
  change timestamp_pattern with
    ([None; None; None; None] ++ Some "-"%char ::
     [None; None] ++ Some "-"%char ::
     [None; None] ++ Some " "%char ::
     [None; None] ++ Some ":"%char ::
     [None; None] ++ Some ":"%char :: [None; None] ++ []).
  rewrite matches_app by (apply decimal_4_digits; lia). cbn [append matches Ascii.eqb Bool.eqb andb].
  rewrite matches_app by (apply zfill_2_digits; lia). cbn [append matches Ascii.eqb Bool.eqb andb].
  rewrite matches_app by (apply zfill_2_digits; lia). cbn [append matches Ascii.eqb Bool.eqb andb].
  rewrite matches_app by (apply zfill_2_digits; lia). cbn [append matches Ascii.eqb Bool.eqb andb].
  rewrite matches_app by (apply zfill_2_digits; lia). cbn [append matches Ascii.eqb Bool.eqb andb].
  cbn [app]. apply zfill_2_digits; lia.
Qed.

(** ** Properties of [convert_2_timestamp] *)

(** A day before 0001-01-01 or after 9999-12-31 has a year that
    [datetime] refuses. *)
Lemma ord2ymd_year_outside (n : Z) :
  n < 1 \/ 3652059 < n ->
  let '(y, m, d) := ord2ymd n in y < MINYEAR \/ MAXYEAR < y.
Proof.
  intros Hn. unfold ord2ymd, DI400Y, DI100Y, DI4Y, MINYEAR, MAXYEAR. cbv zeta.
  pose proof (Z.div_mod (n - 1) 146097 ltac:(lia)) as E1.
  pose proof (Z.mod_pos_bound (n - 1) 146097 ltac:(lia)) as B1.
  set (n400 := (n - 1) / 146097) in *. set (r1 := (n - 1) mod 146097) in *.
  pose proof (Z.div_mod r1 36524 ltac:(lia)) as E2.
  pose proof (Z.mod_pos_bound r1 36524 ltac:(lia)) as B2.
  set (n100 := r1 / 36524) in *. set (r2 := r1 mod 36524) in *.
  pose proof (Z.div_mod r2 1461 ltac:(lia)) as E3.
  pose proof (Z.mod_pos_bound r2 1461 ltac:(lia)) as B3.
  set (n4 := r2 / 1461) in *. set (r3 := r2 mod 1461) in *.
  pose proof (Z.div_mod r3 365 ltac:(lia)) as E4.
  pose proof (Z.mod_pos_bound r3 365 ltac:(lia)) as B4.
  set (n1 := r3 / 365) in *. set (n5 := r3 mod 365) in *.
  clearbody n400 r1 n100 r2 n4 r3 n1 n5.
  destruct (Z.eqb_spec n1 4) as [H1|H1]; simpl; [lia|].
  destruct (Z.eqb_spec n100 4) as [H100|H100]; simpl; [lia|].
  destruct (n5 <? _); lia.
Qed.

(** From 1000-01-01 on, the year has four digits. *)
Lemma ord2ymd_year_1000 (n : Z) :
  364878 <= n <= 3652059 -> let '(y, m, d) := ord2ymd n in 1000 <= y.
Proof.
  intros Hn. unfold ord2ymd, DI400Y, DI100Y, DI4Y. cbv zeta.
  pose proof (Z.div_mod (n - 1) 146097 ltac:(lia)) as E1.
  pose proof (Z.mod_pos_bound (n - 1) 146097 ltac:(lia)) as B1.
  set (n400 := (n - 1) / 146097) in *. set (r1 := (n - 1) mod 146097) in *.
  pose proof (Z.div_mod r1 36524 ltac:(lia)) as E2.
  pose proof (Z.mod_pos_bound r1 36524 ltac:(lia)) as B2.
  set (n100 := r1 / 36524) in *. set (r2 := r1 mod 36524) in *.
  pose proof (Z.div_mod r2 1461 ltac:(lia)) as E3.
  pose proof (Z.mod_pos_bound r2 1461 ltac:(lia)) as B3.
  set (n4 := r2 / 1461) in *. set (r3 := r2 mod 1461) in *.
  pose proof (Z.div_mod r3 365 ltac:(lia)) as E4.
  pose proof (Z.mod_pos_bound r3 365 ltac:(lia)) as B4.
  set (n1 := r3 / 365) in *. set (n5 := r3 mod 365) in *.
  clearbody n400 r1 n100 r2 n4 r3 n1 n5.
  destruct (Z.eqb_spec n1 4) as [H1|H1]; simpl; [lia|].
  destruct (Z.eqb_spec n100 4) as [H100|H100]; simpl; [lia|].
  destruct (n5 <? _); lia.
Qed.

Section SecondsConversion.

Variable utcoffset : Z -> Z.

Lemma localtime_in_range (t : Z) :
  in_datetime_range (t + utcoffset t) = true ->
  exists a, localtime utcoffset t = Ok a /\ datetime_ok a.
Proof.
  unfold in_datetime_range, localtime. intros H.
  apply andb_prop in H as [Hlo Hhi].
  apply Z.leb_le in Hlo, Hhi.
  set (s := t + utcoffset t) in *.
  pose proof (Z.div_mod s 86400 ltac:(lia)) as Es.
  pose proof (Z.mod_pos_bound s 86400 ltac:(lia)) as Bs.
  set (days := s / 86400) in *. set (r := s mod 86400) in *.
  assert (Hord : 1 <= days + 719163 <= 3652059) by lia.
  pose proof (ord2ymd_bounds _ Hord) as Hb.
  destruct (ord2ymd (days + 719163)) as [[y m] d].
  destruct Hb as (Hy & Hm & Hd).
  destruct (Z.leb_spec MINYEAR y); [|lia].
  destruct (Z.leb_spec y MAXYEAR); [|lia].
  simpl. eexists; split; [reflexivity|].
  unfold datetime_ok; simpl. clearbody r.
  pose proof (Z.div_mod r 3600 ltac:(lia)).
  pose proof (Z.mod_pos_bound r 3600 ltac:(lia)).
  pose proof (Z.div_mod (r mod 3600) 60 ltac:(lia)).
  pose proof (Z.mod_pos_bound (r mod 3600) 60 ltac:(lia)).
  pose proof (Z.mod_pos_bound r 60 ltac:(lia)).
  repeat split; try lia.
Qed.

Lemma localtime_out_of_range (t : Z) :
  in_datetime_range (t + utcoffset t) = false ->
  localtime utcoffset t = Err TimestampError.
Proof.
  unfold in_datetime_range, localtime. intros H.
  set (s := t + utcoffset t) in *.
  pose proof (Z.div_mod s 86400 ltac:(lia)) as Es.
  pose proof (Z.mod_pos_bound s 86400 ltac:(lia)) as Bs.
  set (days := s / 86400) in *. set (r := s mod 86400) in *.
  assert (Hord : days + 719163 < 1 \/ 3652059 < days + 719163).
  { apply andb_false_iff in H as [H|H]; apply Z.leb_gt in H; lia. }
  pose proof (ord2ymd_year_outside _ Hord) as Hy.
  destruct (ord2ymd (days + 719163)) as [[y m] d].
  destruct (Z.leb_spec MINYEAR y); simpl; [|reflexivity].
  destruct (Z.leb_spec y MAXYEAR); simpl; [lia | reflexivity].
Qed.

Lemma localtime_year_1000 (t : Z) (a : datetime) :
  -30610224000 <= t + utcoffset t ->
  localtime utcoffset t = Ok a -> 1000 <= dt_year a.
Proof.
  unfold localtime. intros Hlo.
  set (s := t + utcoffset t) in *.
  pose proof (Z.div_mod s 86400 ltac:(lia)) as Es.
  pose proof (Z.mod_pos_bound s 86400 ltac:(lia)) as Bs.
  set (days := s / 86400) in *. set (r := s mod 86400) in *.
  destruct (Z_le_gt_dec (days + 719163) 3652059) as [Hhi|Hhi].
  - pose proof (ord2ymd_year_1000 (days + 719163) ltac:(lia)) as Hy.
    destruct (ord2ymd (days + 719163)) as [[y m] d].
    destruct ((MINYEAR <=? y) && (y <=? MAXYEAR)); [|discriminate].
    intros H; injection H as <-. exact Hy.
  - pose proof (ord2ymd_year_outside (days + 719163) ltac:(lia)) as Hy.
    destruct (ord2ymd (days + 719163)) as [[y m] d].
    destruct (Z.leb_spec MINYEAR y); simpl; [|discriminate].
    destruct (Z.leb_spec y MAXYEAR); simpl; [lia | discriminate].
Qed.

Lemma fromtimestamp_representable (t : Z) :
  representable utcoffset t = true ->
  exists a, fromtimestamp_seconds utcoffset t = Ok a /\ datetime_ok a.
Proof.
  unfold representable, fromtimestamp_seconds. intros H.
  apply andb_prop in H as [H1 H2].
  apply localtime_in_range in H1 as (a & -> & Ha).
  apply localtime_in_range in H2 as (a' & -> & _).
  simpl. eauto.
Qed.

(** The conversion on whole seconds returns exactly on the instants in
    range. *)
Lemma fromtimestamp_outcome (t : Z) :
  if representable utcoffset t
  then exists a, fromtimestamp_seconds utcoffset t = Ok a
  else fromtimestamp_seconds utcoffset t = Err TimestampError.
Proof.
  destruct (representable utcoffset t) eqn:Hr.
  - destruct (fromtimestamp_representable t Hr) as (a & Ha & _). eauto.
  - unfold representable in Hr. unfold fromtimestamp_seconds.
    destruct (in_datetime_range (t + utcoffset t)) eqn:H1; simpl in Hr.
    + apply localtime_in_range in H1 as (a & -> & _). simpl.
      now rewrite (localtime_out_of_range _ Hr).
    + now rewrite (localtime_out_of_range _ H1).
Qed.

(** What the conversion on whole seconds returns is a [datetime] object
    with its fields in range. *)
Lemma fromtimestamp_seconds_ok (t : Z) (a : datetime) :
  fromtimestamp_seconds utcoffset t = Ok a -> datetime_ok a.
Proof.
  intros H. pose proof (fromtimestamp_outcome t) as Ho.
  destruct (representable utcoffset t) eqn:Hr.
  - destruct (fromtimestamp_representable t Hr) as (a' & Ha' & Hok). congruence.
  - congruence.
Qed.

End SecondsConversion.

Section FormatterProperties.

Variable value : Type.
Variable is_zero : value -> bool.
Variable fromtimestamp : value -> result datetime.

Lemma get_column_exists (column : string) (data : list (string * list value))
  (col : list value) :
  get_column column data = Some col ->
  existsb (String.eqb column) (map fst data) = true.
Proof.
  induction data as [|[c vs] data IH]; simpl; [discriminate|].
  destruct (String.eqb column c); simpl; auto.
Qed.

Lemma get_column_absent (column : string) (data : list (string * list value)) :
  get_column column data = None ->
  existsb (String.eqb column) (map fst data) = false.
Proof.
  induction data as [|[c vs] data IH]; simpl; [reflexivity|].
  destruct (String.eqb column c); simpl; [discriminate | exact IH].
Qed.

Lemma format_loop (col : list value) (acc : list json) :
  (forall v a, fromtimestamp v = Ok a -> datetime_ok a) ->
  Forall (fun v => is_zero v = true \/
                   exists a, fromtimestamp v = Ok a /\ 1000 <= dt_year a) col ->
  exists out,
    for_each (fun timestamp_ time_unix =>
                if is_zero time_unix then Ok (timestamp_ ++ [JNum 0])
                else
                  a <- fromtimestamp time_unix ;;
                  Ok (timestamp_ ++ [JStr (strftime a)]))
      col acc = Ok (acc ++ out) /\
    Forall2 (formatted is_zero) col out.
Proof.
  intros Hlib H; revert acc; induction H as [|v col Hv _ IH]; intros acc; simpl.
  - exists []. rewrite app_nil_r. split; [reflexivity | constructor].
  - destruct (is_zero v) eqn:Hz; simpl.
    + destruct (IH (acc ++ [JNum 0])) as (out & -> & HF).
      exists (JNum 0 :: out). rewrite <- app_assoc. split; [reflexivity|].
      constructor; [|exact HF]. unfold formatted. now rewrite Hz.
    + destruct Hv as [Hv|(a & Ha & Hy)]; [congruence|].
      rewrite Ha. simpl.
      destruct (IH (acc ++ [JStr (strftime a)])) as (out & -> & HF).
      exists (JStr (strftime a) :: out). rewrite <- app_assoc.
      split; [reflexivity|]. constructor; [|exact HF].
      unfold formatted. rewrite Hz.
      exists (strftime a). split; [reflexivity|].
      apply strftime_form; [now apply (Hlib v) | exact Hy].
Qed.

End FormatterProperties.

(** Two columns of whole seconds on which the formatter does not do what
    is asked: an epoch value in milliseconds is beyond the years [datetime]
    can hold, and the formatter raises; the last second of the year 999 is
    formatted with a year of three digits. *)
Lemma convert_2_timestamp_out_of_range :
  is_zero_seconds 1000000000000 = false /\
  convert_2_timestamp is_zero_seconds (fromtimestamp_seconds utc) "ts"
    [("ts", [1000000000000])] = Err TimestampError /\
  is_zero_seconds (-30610224001) = false /\
  convert_2_timestamp is_zero_seconds (fromtimestamp_seconds utc) "ts"
    [("ts", [-30610224001])] = Ok (Some [JStr "999-12-31 23:59:59"]) /\
  timestamp_form "999-12-31 23:59:59" = false.
Proof. repeat split. Qed.

(** C6, amended: for a column of numeric epoch values each of which is
    zero or is converted by [fromtimestamp] to a date of the year 1000 or
    later, the formatter returns a list of the column's length that holds,
    position by position, 0 for a zero value and a string of the form
    YYYY-MM-DD HH:MM:SS for any other value.  The first hypothesis is the
    library's guarantee on the [datetime] objects it returns. *)
Theorem convert_2_timestamp_formats (value : Type) (is_zero : value -> bool)
  (fromtimestamp : value -> result datetime) (column : string)
  (data : list (string * list value)) (col : list value) :
  (forall v a, fromtimestamp v = Ok a -> datetime_ok a) ->
  get_column column data = Some col ->
  Forall (fun v => is_zero v = true \/
                   exists a, fromtimestamp v = Ok a /\ 1000 <= dt_year a) col ->
  exists out,
    convert_2_timestamp is_zero fromtimestamp column data = Ok (Some out) /\
    List.length out = List.length col /\
    Forall2 (formatted is_zero) col out.
Proof.
  intros Hlib Hcol Hrange. unfold convert_2_timestamp.
  rewrite (get_column_exists _ _ _ _ Hcol), Hcol. simpl.
  destruct (format_loop value is_zero fromtimestamp col [] Hlib Hrange)
    as (out & -> & HF).
  simpl. exists out. repeat split; [|exact HF].
  symmetry. now apply Forall2_length in HF.
Qed.

Lemma convert_2_timestamp_formats_witness :
  exists out,
    convert_2_timestamp is_zero_seconds (fromtimestamp_seconds utc) "ts"
      [("ts", [0; 1700000000])] = Ok (Some out) /\
    List.length out = List.length [0; 1700000000] /\
    Forall2 (formatted is_zero_seconds) [0; 1700000000] out.
Proof.
  apply (convert_2_timestamp_formats Z is_zero_seconds (fromtimestamp_seconds utc)
           "ts" [("ts", [0; 1700000000])] [0; 1700000000]).
  - intros v a. apply fromtimestamp_seconds_ok.
  - reflexivity.
  - constructor; [left; reflexivity|].
    constructor; [|constructor].
    right. eexists. split; [reflexivity|]. simpl. lia.
Defined.

Example convert_2_timestamp_sample :
  convert_2_timestamp is_zero_seconds (fromtimestamp_seconds utc) "ts"
    [("ts", [0; 1700000000])] =
  Ok (Some [JNum 0; JStr "2023-11-14 22:13:20"]).
Proof. reflexivity. Qed.

(** On whole seconds the conversion is the one modelled above: every value
    that is zero, or whose local time lies between 1000-01-01 00:00:00 and
    9999-12-31 23:59:59, is formatted. *)
Lemma convert_2_timestamp_seconds_formats (utcoffset : Z -> Z) (column : string)
  (data : list (string * list Z)) (col : list Z) :
  get_column column data = Some col ->
  Forall (fun t => t = 0 \/
                   (representable utcoffset t = true /\
                    -30610224000 <= t + utcoffset t)) col ->
  exists out,
    convert_2_timestamp is_zero_seconds (fromtimestamp_seconds utcoffset)
      column data = Ok (Some out) /\
    List.length out = List.length col /\
    Forall2 (formatted is_zero_seconds) col out.
Proof.
  intros Hcol Hrange. unfold convert_2_timestamp.
  rewrite (get_column_exists _ _ _ _ Hcol), Hcol. simpl.
  destruct (format_loop Z is_zero_seconds (fromtimestamp_seconds utcoffset) col [])
    as (out & -> & HF).
  - intros v a. apply fromtimestamp_seconds_ok.
  - eapply Forall_impl; [|exact Hrange]. intros t Ht; simpl in Ht. destruct Ht as [->|[Hr Hlo]]; [now left|].
    right. destruct (fromtimestamp_representable utcoffset t Hr) as (a & Ha & _).
    exists a. split; [exact Ha|].
    unfold fromtimestamp_seconds in Ha.
    destruct (localtime utcoffset t) as [a'|] eqn:Hl; [|discriminate].
    destruct (localtime utcoffset (t - 24 * 3600)); [|discriminate].
    simpl in Ha.
    injection Ha as <-. exact (localtime_year_1000 utcoffset t a' Hlo Hl).
  - simpl. exists out. repeat split; [|exact HF].
    symmetry. now apply Forall2_length in HF.
Qed.

(** ** Properties of [break_combined_weeks] *)

Lemma break_combined_weeks_loop (ws : list (Z * Z)) (plus minus : list Z) :
  fold_left (fun acc week =>
               let plus_one_week := fst acc in
               let minus_one_week := snd acc in
               if fst week <? snd week
               then (plus_one_week ++ [fst week], minus_one_week ++ [snd week])
               else (plus_one_week ++ [snd week], minus_one_week ++ [fst week]))
    ws (plus, minus) =
  (plus ++ earlier_weeks ws, minus ++ later_weeks ws).
Proof.
  revert plus minus; induction ws as [|[a b] ws IH]; intros plus minus; simpl.
  - now rewrite !app_nil_r.
  - destruct (Z.ltb_spec a b); rewrite IH, <- !app_assoc; simpl.
    + now rewrite Z.min_l, Z.max_r by lia.
    + now rewrite Z.min_r, Z.max_l by lia.
Qed.

(** X1: the first list returned holds the smaller week of every pair and
    the second list the larger one, both in input order; hence both have the
    length of the input and the first is pointwise at most the second. *)
Theorem break_combined_weeks_min_max (combined_weeks : list (Z * Z)) :
  break_combined_weeks combined_weeks =
    (earlier_weeks combined_weeks, later_weeks combined_weeks) /\
  Forall2 Z.le (fst (break_combined_weeks combined_weeks))
    (snd (break_combined_weeks combined_weeks)).
Proof.
  unfold break_combined_weeks. rewrite break_combined_weeks_loop. simpl.
  split; [reflexivity|].
  induction combined_weeks as [|[a b] ws IH]; simpl; constructor; auto. lia.
Qed.

(** X2: breaking is idempotent: pairing the two lists returned and
    breaking the pairs again returns the same two lists. *)
Theorem break_combined_weeks_idempotent (combined_weeks : list (Z * Z)) :
  let '(plus_one_week, minus_one_week) := break_combined_weeks combined_weeks in
  break_combined_weeks (combine plus_one_week minus_one_week) =
  (plus_one_week, minus_one_week).
Proof.
  assert (E : forall ws, break_combined_weeks ws = (earlier_weeks ws, later_weeks ws)).
  { intros ws. unfold break_combined_weeks. now rewrite break_combined_weeks_loop. }
  rewrite (E combined_weeks), E. unfold earlier_weeks, later_weeks.
  induction combined_weeks as [|[a b] ws IH]; simpl; [reflexivity|].
  injection IH as IH1 IH2. rewrite IH1, IH2. f_equal; f_equal; lia.
Qed.

(** ** More on [from_msg_get_replies], and [process_msgs] *)

Lemma assoc_dict_set_same (k : string) (v : json) (d : list (string * json)) :
  assoc k (dict_set k v d) = Some v.
Proof.
  induction d as [|[k' v'] d IH]; simpl.
  - now rewrite String.eqb_refl.
  - destruct (String.eqb k k') eqn:E; simpl; rewrite E; auto.
Qed.

Lemma assoc_dict_set_other (k k' : string) (v : json) (d : list (string * json)) :
  k <> k' -> assoc k (dict_set k' v d) = assoc k d.
Proof.
  intros Hk. induction d as [|[k0 v0] d IH]; simpl.
  - destruct (String.eqb_spec k k'); [contradiction | reflexivity].
  - destruct (String.eqb_spec k' k0) as [->|Hk0]; simpl.
    + destruct (String.eqb_spec k k0); [contradiction | reflexivity].
    + now rewrite IH.
Qed.

Lemma tag_with_copy (th mid : json) (r : list (string * json)) :
  tagged_copy th mid (JDict r) (tag_with th mid r).
Proof.
  exists r, (dict_set "message_id" mid (dict_set "thread_ts" th r)).
  repeat split.
  - rewrite assoc_dict_set_other by discriminate. apply assoc_dict_set_same.
  - apply assoc_dict_set_same.
  - intros k H1 H2. now rewrite !assoc_dict_set_other.
Qed.

(** With the thread marker and the parent's identifier at hand, what is
    returned is a list of tagged records. *)
Lemma from_msg_get_replies_tagged (d : list (string * json)) (th mid : json) :
  assoc "thread_ts" d = Some th -> assoc "client_msg_id" d = Some mid ->
  exists items,
    from_msg_get_replies (JDict d) = Ok (map (tag_with th mid) (record_prefix items)) /\
    (forall l, assoc "replies" d = Some (JList l) -> items = l).
Proof.
  intros Hth Hmid. unfold from_msg_get_replies; simpl. unfold has_key. rewrite Hth.
  destruct (assoc "replies" d) as [rp|]; simpl.
  - destruct (py_iter rp) as [items|] eqn:Hit.
    + exists items. rewrite (for_each_try_tag d th mid items [] Hth Hmid).
      split; [reflexivity|]. intros l H. injection H as ->. simpl in Hit. congruence.
    + exists []. split; [reflexivity|]. intros l H. injection H as ->. discriminate.
  - exists []. split; [reflexivity | discriminate].
Qed.

Lemma record_prefix_all (items : list json) :
  Forall (fun x => exists r, x = JDict r) items ->
  map JDict (record_prefix items) = items.
Proof.
  induction 1 as [|x items (r & ->) _ IH]; simpl; [reflexivity | now rewrite IH].
Qed.

(** X3: on a thread whose replies are all records, the extractor returns
    one reply per reply of the list, in order; each holds the parent's
    thread timestamp under ["thread_ts"] and the parent's identifier under
    ["message_id"], and every other field of the reply as it was. *)
Theorem from_msg_get_replies_tags_every_reply (d : list (string * json))
  (th mid : json) (items : list json) :
  assoc "thread_ts" d = Some th -> assoc "client_msg_id" d = Some mid ->
  assoc "replies" d = Some (JList items) ->
  Forall (fun x => exists r, x = JDict r) items ->
  exists rs,
    from_msg_get_replies (JDict d) = Ok rs /\
    Forall2 (tagged_copy th mid) items rs.
Proof.
  intros Hth Hmid Hrp Hrec.
  destruct (from_msg_get_replies_tagged d th mid Hth Hmid) as (l & -> & Hl).
  rewrite (Hl items Hrp). eexists; split; [reflexivity|].
  rewrite <- (record_prefix_all items Hrec) at 1.
  induction (record_prefix items) as [|r rs IH]; simpl; constructor; auto.
  apply tag_with_copy.
Qed.

Lemma from_msg_get_replies_tags_every_reply_witness :
  exists rs,
    from_msg_get_replies sample_thread = Ok rs /\
    Forall2 (tagged_copy (JStr "1634.0010") (JStr "m8"))
      [JDict [("user", JStr "U2"); ("ts", JStr "1634.0011")];
       JDict [("user", JStr "U3"); ("ts", JStr "1634.0012")]] rs.
Proof.
  apply (from_msg_get_replies_tags_every_reply
           [("client_msg_id", JStr "m8"); ("type", JStr "message");
            ("text", JStr "q"); ("user", JStr "U1"); ("ts", JStr "1634.0010");
            ("team", JStr "T1"); ("thread_ts", JStr "1634.0010");
            ("reply_count", JNum 2); ("reply_users_count", JNum 2);
            ("replies", JList [JDict [("user", JStr "U2"); ("ts", JStr "1634.0011")];
                               JDict [("user", JStr "U3"); ("ts", JStr "1634.0012")]])]);
    try reflexivity.
  repeat constructor; eexists; reflexivity.
Defined.

Lemma from_msg_get_replies_returns (d : list (string * json)) :
  exists rs, from_msg_get_replies (JDict d) = Ok rs.
Proof.
  unfold from_msg_get_replies; simpl.
  destruct (has_key "thread_ts" d); simpl; [|eauto].
  destruct (has_key "replies" d); simpl; [|eauto].
  destruct (match assoc "replies" d with Some x => Ok x | None => Err _ end);
    simpl; [|eauto].
  destruct (py_iter a); eauto.
Qed.

(** The dict comprehension of line 223 stops at the first missing key. *)
Lemma select_keys_loop (d : list (string * json)) (keys : list string)
  (acc : list (string * json)) :
  for_each (fun sel k => v <- py_getitem (JDict d) k ;; Ok (dict_set k v sel))
    keys acc =
  match first_missing keys d with
  | Some k => Err (KeyError k)
  | None => Ok (fold_left (fun sel k => dict_set k (field k (JDict d)) sel) keys acc)
  end.
Proof.
  unfold first_missing, field.
  revert acc; induction keys as [|k keys IH]; intros acc; simpl; [reflexivity|].
  unfold has_key. destruct (assoc k d); simpl; [apply IH | reflexivity].
Qed.

(** X4: on a record, [process_msgs] raises [KeyError] for the first of its
    nine keys that the record lacks; when none is missing it returns the
    nine fields, in the order of the key list, paired with what the reply
    extractor returns. *)
Theorem process_msgs_first_missing_key (d : list (string * json)) :
  match first_missing process_msgs_keys d with
  | Some k => process_msgs (JDict d) = Err (KeyError k)
  | None =>
      exists rs,
        from_msg_get_replies (JDict d) = Ok rs /\
        process_msgs (JDict d) =
          Ok (JDict (map (fun k => (k, field k (JDict d))) process_msgs_keys), rs)
  end.
Proof.
  unfold process_msgs. rewrite select_keys_loop.
  destruct (first_missing process_msgs_keys d); simpl; [reflexivity|].
  destruct (from_msg_get_replies_returns d) as (rs & Hrs).
  exists rs. split; [exact Hrs|]. now rewrite Hrs.
Qed.

(** X5: whenever [process_msgs] returns, every reply it returns is tagged
    with the thread timestamp and the identifier held by the selected
    fields. *)
Theorem process_msgs_replies_match_selection (msg : json)
  (sel : list (string * json)) (rs : list json) :
  process_msgs msg = Ok (JDict sel, rs) ->
  exists th mid,
    assoc "thread_ts" sel = Some th /\ assoc "client_msg_id" sel = Some mid /\
    Forall (fun r => exists r', r = JDict r' /\
                       assoc "thread_ts" r' = Some th /\
                       assoc "message_id" r' = Some mid) rs.
Proof.
  intros H. destruct msg as [| b | z | s | l | d]; try discriminate.
  unfold process_msgs in H. rewrite select_keys_loop in H.
  destruct (first_missing process_msgs_keys d) eqn:Hmiss; [discriminate|].
  simpl in H. bind_inv H. injection H as <- <-.
  unfold first_missing in Hmiss. simpl in Hmiss. unfold has_key in Hmiss.
  unfold field; simpl.
  destruct (assoc "client_msg_id" d) as [mid|] eqn:Hmid; [|discriminate].
  destruct (assoc "type" d); [|discriminate].
  destruct (assoc "text" d); [|discriminate].
  destruct (assoc "user" d); [|discriminate].
  destruct (assoc "ts" d); [|discriminate].
  destruct (assoc "team" d); [|discriminate].
  destruct (assoc "thread_ts" d) as [th|] eqn:Hth; [|discriminate].
  exists th, mid. simpl. repeat split.
  destruct (from_msg_get_replies_tagged d th mid Hth Hmid) as (items & E & _).
  rewrite E in Hx. injection Hx as <-. clear E Hmiss.
  induction (record_prefix items) as [|r rest IH]; simpl; constructor; auto.
  destruct (tag_with_copy th mid r) as (d0 & d1 & _ & E1 & H1 & H2 & _).
  exists d1. auto.
Qed.

Lemma process_msgs_replies_match_selection_witness :
  exists th mid,
    assoc "thread_ts"
      (map (fun k => (k, field k sample_thread)) process_msgs_keys) = Some th /\
    assoc "client_msg_id"
      (map (fun k => (k, field k sample_thread)) process_msgs_keys) = Some mid /\
    Forall (fun r => exists r', r = JDict r' /\
                       assoc "thread_ts" r' = Some th /\
                       assoc "message_id" r' = Some mid)
      [tag_with (JStr "1634.0010") (JStr "m8")
         [("user", JStr "U2"); ("ts", JStr "1634.0011")];
       tag_with (JStr "1634.0010") (JStr "m8")
         [("user", JStr "U3"); ("ts", JStr "1634.0012")]].
Proof.
  apply (process_msgs_replies_match_selection sample_thread).
  reflexivity.
Defined.

(** ** More on [get_messages_dict], and [msgs_to_df] *)

Lemma extract_rows_app (a b : list json) :
  extract_rows (a ++ b) =
  (ra <- extract_rows a ;; rb <- extract_rows b ;; Ok (ra ++ rb)).
Proof.
  induction a as [|m a IH]; simpl.
  - now destruct (extract_rows b).
  - destruct (py_contains "subtype" m) as [[|]|e]; simpl; auto.
    destruct (extract_row m); simpl; [|reflexivity].
    rewrite IH. destruct (extract_rows a); simpl; [|reflexivity].
    now destruct (extract_rows b).
Qed.

Lemma get_messages_dict_extract_rows (msgs : list json) :
  get_messages_dict msgs =
  (rs <- extract_rows msgs ;; Ok (fold_left push_row rs empty_table)).
Proof. apply for_each_process_rows. Qed.

(** X6: extraction distributes over concatenation of the input: the table
    of [a ++ b] is the table of [a] followed, column by column, by the
    table of [b], and it raises what the first failing part raises. *)
Theorem get_messages_dict_app (a b : list json) :
  get_messages_dict (a ++ b) =
  (ta <- get_messages_dict a ;; tb <- get_messages_dict b ;;
   Ok (table_concat ta tb)).
Proof.
  rewrite !get_messages_dict_extract_rows, extract_rows_app.
  destruct (extract_rows a) as [ra|]; simpl; [|reflexivity].
  destruct (extract_rows b) as [rb|]; simpl; [|reflexivity].
  rewrite !fold_push_row_columns. unfold table_concat; simpl.
  now rewrite !map_app.
Qed.

(** X7: the entry of the replies_to column is the row's own timestamp
    when the message has a ["parent_user_id"] key, and [None] otherwise. *)
Theorem get_messages_dict_replies_to_own_ts (msgs : list json) (t : msg_table)
  (i : nat) (m : json) :
  get_messages_dict msgs = Ok t ->
  nth_error (kept msgs) i = Some m ->
  exists (b : bool) tm,
    py_contains "parent_user_id" m = Ok b /\
    nth_error (ts t) i = Some tm /\
    nth_error (replies_to t) i = Some (if b then tm else JNull).
Proof.
  intros H Hi.
  destruct (get_messages_dict_row _ _ _ _ H Hi)
    as (r & Hr & _ & _ & _ & Hts & _ & Hrt & _).
  apply extract_row_inv in Hr as (d & -> & _ & _ & _ & _ & _ & Hrto & _).
  exists (has_key "parent_user_id" d), (r_ts r).
  rewrite Hrt, Hrto. auto.
Qed.

Lemma get_messages_dict_replies_to_own_ts_witness :
  exists (b : bool) tm,
    py_contains "parent_user_id" sample_reply = Ok b /\
    nth_error [JStr "1634.0003"; JStr "1634.0011"] 1 = Some tm /\
    nth_error [JNull; JStr "1634.0011"] 1 = Some (if b then tm else JNull).
Proof.
  apply (get_messages_dict_replies_to_own_ts [sample_plain; sample_join; sample_reply]
           (MkTable [JNull; JStr "m9"] [JStr "bye"; JStr "a"] []
              [JStr "U2"; JStr "U2"] [JNull; JNull] [JNull; JNull]
              [JNull; JNull] [JNull; JNull] [JNull; JStr "1634.0011"]
              [JStr "1634.0003"; JStr "1634.0011"] [JNull; JNull]
              [JNum 0; JNum 0]) 1 sample_reply);
    reflexivity.
Defined.

Lemma extract_rows_returns_cons (m : json) (rest : list json) :
  (exists rs, extract_rows (m :: rest) = Ok rs) <->
  (exists rs, extract_rows [m] = Ok rs) /\ (exists rs, extract_rows rest = Ok rs).
Proof.
  change (m :: rest) with ([m] ++ rest). rewrite extract_rows_app.
  destruct (extract_rows [m]) as [r1|]; simpl.
  - destruct (extract_rows rest) as [r2|]; simpl.
    + split; eauto.
    + split; [intros (rs & H); discriminate | intros (_ & rs & H); discriminate].
  - split; [intros (rs & H); discriminate | intros ((rs & H) & _); discriminate].
Qed.

Lemma get_messages_dict_returns_rows (msgs : list json) :
  (exists t, get_messages_dict msgs = Ok t) <-> (exists rs, extract_rows msgs = Ok rs).
Proof.
  rewrite get_messages_dict_extract_rows.
  destruct (extract_rows msgs); simpl; split; intros (x & H); eauto; discriminate.
Qed.

(** X8: extraction returns on a list exactly when it returns on every
    message of the list taken alone. *)
Theorem get_messages_dict_returns_iff_each (msgs : list json) :
  (exists t, get_messages_dict msgs = Ok t) <->
  Forall (fun m => exists t, get_messages_dict [m] = Ok t) msgs.
Proof.
  rewrite get_messages_dict_returns_rows.
  induction msgs as [|m msgs IH].
  - split; [constructor | simpl; eauto].
  - rewrite extract_rows_returns_cons, IH. split.
    + intros [H1 H2]. constructor; [|exact H2].
      now apply get_messages_dict_returns_rows.
    + intros H. inversion H; subst. split; [|assumption].
      now apply get_messages_dict_returns_rows.
Qed.

(** X9: [msgs_to_df] builds a frame only from input without any message
    to keep: as soon as extraction yields a row, the attachments column,
    which stays empty, is shorter than the others and [pd.DataFrame] raises
    [ValueError]. *)
Theorem msgs_to_df_raises_on_rows (msgs : list json) (t : msg_table) :
  get_messages_dict msgs = Ok t ->
  msgs_to_df msgs =
    match kept msgs with
    | [] => Ok empty_table
    | _ :: _ => Err ValueError
    end.
Proof.
  intros H. unfold msgs_to_df. rewrite H. simpl.
  apply get_messages_dict_rows in H as (rs & HF & ->).
  apply Forall2_length in HF.
  destruct (kept msgs) as [|m ms]; destruct rs as [|r rs]; try discriminate.
  - reflexivity.
  - unfold DataFrame; simpl. rewrite !length_map, Nat.eqb_refl. reflexivity.
Qed.

Lemma msgs_to_df_raises_on_rows_witness :
  msgs_to_df sample_msgs =
    match kept sample_msgs with
    | [] => Ok empty_table
    | _ :: _ => Err ValueError
    end.
Proof.
  apply (msgs_to_df_raises_on_rows sample_msgs sample_table). reflexivity.
Defined.

(** ** More on the [Counter] aggregations *)

Lemma flatten_loop_outcome (col acc : list json) :
  for_each (fun acc r =>
              match r with
              | JNull => Ok acc
              | _ => us <- py_iter r ;; Ok (acc ++ us)
              end) col acc =
  if forallb (fun r => match r with
                       | JNull => true
                       | _ => match py_iter r with Ok _ => true | Err _ => false end
                       end) col
  then Ok (acc ++ flat_map entry_items col)
  else Err TypeError.
Proof.
  revert acc; induction col as [|r col IH]; intros acc; simpl.
  - now rewrite app_nil_r.
  - destruct r; simpl; rewrite ?IH, ?app_nil_r; try reflexivity;
      destruct (forallb _ col); now rewrite ?app_assoc.
Qed.

Lemma count_loop_outcome (xs : list json) (c : pydict Z) :
  if forallb hashable xs
  then exists c', for_each count_element xs c = Ok c'
  else for_each count_element xs c = Err TypeError.
Proof.
  revert c; induction xs as [|x xs IH]; intros c; simpl; [eauto|].
  unfold count_element at 1 3, pd_setitem.
  destruct (hashable x); simpl; [apply IH | reflexivity].
Qed.

Lemma forallb_countable (col : list json) :
  forallb countable_entry col =
  forallb (fun r => match r with
                    | JNull => true
                    | _ => match py_iter r with Ok _ => true | Err _ => false end
                    end) col &&
  (forallb hashable (flat_map entry_items col) ||
   negb (forallb (fun r => match r with
                           | JNull => true
                           | _ => match py_iter r with Ok _ => true | Err _ => false end
                           end) col)).
Proof.
  induction col as [|r col IH]; simpl; [reflexivity|].
  rewrite IH, forallb_app. clear IH.
  destruct r; simpl;
    repeat match goal with |- context [forallb ?f ?l] => destruct (forallb f l) end;
    reflexivity.
Qed.

Lemma count_column_outcome (col : list json) :
  if forallb countable_entry col
  then exists c, (us <- flatten_non_null col ;; Counter us) = Ok c
  else (us <- flatten_non_null col ;; Counter us) = Err TypeError.
Proof.
  unfold flatten_non_null, Counter.
  rewrite forallb_countable, flatten_loop_outcome.
  destruct (forallb _ col); simpl; [|reflexivity].
  pose proof (count_loop_outcome (flat_map entry_items col) []) as H.
  destruct (forallb hashable _); exact H.
Qed.

(** X10: the reply count of line 54 is computed exactly when every
    non-null entry of the replies column can be iterated and holds hashable
    elements only; on any other column it raises [TypeError]. *)
Theorem replies_count_dict_outcome (df : msg_table) :
  if forallb countable_entry (replies df)
  then exists c, replies_count_dict df = Ok c
  else replies_count_dict df = Err TypeError.
Proof. apply count_column_outcome. Qed.

(** X11: on the table extracted from an export in which a kept message
    carries its thread's reply records (["thread_ts"], ["reply_users"] and
    a ["replies"] list holding a record), the reply count raises
    [TypeError]: a record cannot be counted. *)
Theorem replies_count_dict_raises_on_reply_records (msgs : list json)
  (t : msg_table) (d : list (string * json)) (items : list json)
  (r : list (string * json)) :
  get_messages_dict msgs = Ok t ->
  In (JDict d) (kept msgs) ->
  has_key "thread_ts" d = true -> has_key "reply_users" d = true ->
  assoc "replies" d = Some (JList items) -> In (JDict r) items ->
  replies_count_dict t = Err TypeError.
Proof.
  intros H Hin Hth Hru Hrp Hr.
  pose proof (replies_count_dict_outcome t) as Hout.
  assert (Hbad : forallb countable_entry (replies t) = false).
  { apply In_nth_error in Hin as (i & Hi).
    destruct (get_messages_dict_row _ _ _ _ H Hi)
      as (row & Hrow & _ & _ & _ & _ & _ & _ & Hrep & _).
    apply extract_row_inv in Hrow as (d' & E & _ & _ & _ & _ & _ & _ & Hv & _).
    injection E as <-. rewrite Hth, Hru in Hv. simpl in Hv.
    unfold field in Hv; simpl in Hv. rewrite Hrp in Hv; simpl in Hv.
    apply nth_error_In in Hrep. rewrite Hv in Hrep.
    destruct (forallb countable_entry (replies t)) eqn:Hall; [|reflexivity].
    rewrite forallb_forall in Hall. specialize (Hall _ Hrep). simpl in Hall.
    rewrite forallb_forall in Hall. specialize (Hall _ Hr). discriminate. }
  now rewrite Hbad in Hout.
Qed.

Lemma replies_count_dict_raises_on_reply_records_witness :
  replies_count_dict
    (MkTable [JStr "m10"] [JStr "q"] [] [JStr "U1"] [JNull] [JNull] [JNull]
       [JList [JDict [("user", JStr "U2"); ("ts", JStr "1634.0011")]]]
       [JNull] [JStr "1634.0010"] [JNull] [JNum 0]) = Err TypeError.
Proof.
  apply (replies_count_dict_raises_on_reply_records [sample_export_thread] _
           [("client_msg_id", JStr "m10"); ("text", JStr "q"); ("user", JStr "U1");
            ("ts", JStr "1634.0010"); ("thread_ts", JStr "1634.0010");
            ("reply_users", JList [JStr "U2"]);
            ("replies", JList [JDict [("user", JStr "U2"); ("ts", JStr "1634.0011")]])]
           [JDict [("user", JStr "U2"); ("ts", JStr "1634.0011")]]
           [("user", JStr "U2"); ("ts", JStr "1634.0011")]);
    try reflexivity; left; reflexivity.
Defined.

Lemma count_column_occurrences (col : list json) (c : pydict Z) (u : string) :
  (us <- flatten_non_null col ;; Counter us) = Ok c ->
  pd_get (JStr u) c =
    if (occurrences u col =? 0)%nat then None
    else Some (Z.of_nat (occurrences u col)).
Proof.
  unfold flatten_non_null, Counter. intros H.
  bind_inv H. apply flatten_non_null_items in Hx. simpl in Hx. subst x.
  rewrite (for_each_count_element _ _ _ (JStr u) H). simpl.
  unfold occurrences.
  assert (Hf : forall xs, filter (key_eqb (JStr u)) xs =
                          filter (fun x => py_eq_str x u) xs).
  { intros xs. apply filter_ext. intros [ | | | s | | ]; simpl; try reflexivity.
    apply String.eqb_sym. }
  rewrite Hf.
  set (n := List.length _).
  destruct (Nat.eqb_spec n 0) as [->|Hn]; [reflexivity|].
  destruct (Z.eqb_spec (Z.of_nat n) 0); [lia | reflexivity].
Qed.

Lemma filter_map_length {A B : Type} (p : B -> bool) (f : A -> B) (l : list A) :
  List.length (filter p (map f l)) = List.length (filter (fun x => p (f x)) l).
Proof.
  induction l as [|x l IH]; simpl; [reflexivity|].
  destruct (p (f x)); simpl; now rewrite IH.
Qed.

Lemma filter_filter {A : Type} (p q : A -> bool) (l : list A) :
  filter p (filter q l) = filter (fun x => q x && p x) l.
Proof.
  induction l as [|x l IH]; simpl; [reflexivity|].
  destruct (q x); simpl; [destruct (p x)|]; now rewrite IH.
Qed.

(** The mentions entry of a row lists the user ids of the user-tagged
    sub-elements of its message. *)
Lemma row_mentions_of (m : json) (r : row) (u : string) :
  extract_row m = Ok r ->
  List.length (filter (fun x => py_eq_str x u) (entry_items (r_mentions r))) =
  List.length (mentions_of u m).
Proof.
  intros H. apply extract_row_inv in H as (d & -> & _ & _ & _ & _ & _ & _ & _ & Hb).
  unfold mentions_of, sub_elements, blocks_of; simpl.
  destruct (assoc "blocks" d) as [bs|]; simpl.
  - destruct Hb as (blks & a & Hit & Hw & _ & -> & _). rewrite Hit; simpl.
    apply walk_blocks_extend in Hw. subst a. simpl.
    now rewrite filter_map_length, filter_filter.
  - destruct Hb as (_ & -> & _). reflexivity.
Qed.

(** X12: on the table extracted from a list of messages, the mention
    count of line 55 gives every user identifier the number of sub-elements
    tagged ["user"] that carry it, over all the kept messages; an identifier
    nobody mentions has no entry. *)
Theorem mentions_count_dict_counts_tagged_users (msgs : list json)
  (t : msg_table) (c : pydict Z) (u : string) :
  get_messages_dict msgs = Ok t ->
  mentions_count_dict t = Ok c ->
  pd_get (JStr u) c =
    let n := List.length (flat_map (mentions_of u) (kept msgs)) in
    if (n =? 0)%nat then None else Some (Z.of_nat n).
Proof.
  intros H Hc. unfold mentions_count_dict in Hc.
  rewrite (count_column_occurrences _ _ u Hc). cbv zeta.
  apply get_messages_dict_rows in H as (rs & HF & ->). simpl.
  assert (E : occurrences u (map r_mentions rs) =
              List.length (flat_map (mentions_of u) (kept msgs))).
  { unfold occurrences. clear Hc.
    induction HF as [|m r ms rs Hr _ IH]; simpl; [reflexivity|].
    rewrite filter_app, !length_app, IH. f_equal. now apply row_mentions_of. }
  now rewrite E.
Qed.

Lemma mentions_count_dict_counts_tagged_users_witness :
  pd_get (JStr "U2") [(JStr "U2", 1)] =
    let n := List.length (flat_map (mentions_of "U2") (kept sample_msgs)) in
    if (n =? 0)%nat then None else Some (Z.of_nat n).
Proof.
  apply (mentions_count_dict_counts_tagged_users sample_msgs sample_table);
    reflexivity.
Defined.

Lemma total_count_set (x : json) (c : pydict Z) :
  total_count (pd_set x (match pd_get x c with Some n => n | None => 0 end + 1) c) =
  total_count c + 1.
Proof.
  induction c as [|[k v] c IH]; simpl; [reflexivity|].
  destruct (key_eqb x k); simpl; [lia|]. rewrite IH. lia.
Qed.

Lemma positive_count_set (x : json) (c : pydict Z) :
  Forall (fun kv => 1 <= snd kv) c ->
  Forall (fun kv => 1 <= snd kv)
    (pd_set x (match pd_get x c with Some n => n | None => 0 end + 1) c).
Proof.
  induction 1 as [|[k v] c Hk Hc IH]; simpl.
  - constructor; [simpl; lia | constructor].
  - destruct (key_eqb x k); constructor; simpl in *; auto; lia.
Qed.

Lemma count_loop_invariants (xs : list json) (c c' : pydict Z) :
  for_each count_element xs c = Ok c' ->
  distinct_keys c -> Forall (fun kv => 1 <= snd kv) c ->
  distinct_keys c' /\ Forall (fun kv => 1 <= snd kv) c' /\
  total_count c' = total_count c + Z.of_nat (List.length xs).
Proof.
  revert c; induction xs as [|x xs IH]; intros c H Hd Hp; simpl in *.
  - injection H as <-. repeat split; auto. lia.
  - bind_inv H. unfold count_element, pd_setitem in Hx.
    destruct (hashable x); [|discriminate]. injection Hx as <-.
    apply IH in H as (H1 & H2 & H3).
    + repeat split; auto. rewrite H3, total_count_set. lia.
    + now apply pd_set_distinct.
    + now apply positive_count_set.
Qed.

(** X13: the reply count of line 54, when it returns, has pairwise
    different keys and counts of at least 1, and its counts add up to the
    number of elements of the non-null entries of the replies column. *)
Theorem replies_count_dict_totals (df : msg_table) (c : pydict Z) :
  replies_count_dict df = Ok c ->
  distinct_keys c /\ Forall (fun kv => 1 <= snd kv) c /\
  total_count c = Z.of_nat (List.length (flat_map entry_items (replies df))).
Proof.
  unfold replies_count_dict, flatten_non_null, Counter. intros H.
  bind_inv H. apply flatten_non_null_items in Hx. simpl in Hx. subst x.
  apply count_loop_invariants in H; simpl; auto.
Qed.

Lemma replies_count_dict_totals_witness :
  distinct_keys [(JStr "U1", 2); (JStr "U2", 1)] /\
  Forall (fun kv => 1 <= snd kv) [(JStr "U1", 2); (JStr "U2", 1)] /\
  total_count [(JStr "U1", 2); (JStr "U2", 1)] =
    Z.of_nat (List.length (flat_map entry_items (replies sample_replies_table))).
Proof.
  apply (replies_count_dict_totals sample_replies_table). reflexivity.
Defined.

(** ** More on [map_userid_2_realname] *)









Example map_userid_2_realname_short_sample :
  map_userid_2_realname sample_profile_short sample_comm = Err IndexError.
Proof. reflexivity. Qed.

(** ** More on [convert_2_timestamp] *)

Section FormatterOutcome.

Variable value : Type.
Variable is_zero : value -> bool.
Variable fromtimestamp : value -> result datetime.

Lemma format_loop_outcome (col : list value) (acc : list json) :
  match find (unconvertible is_zero fromtimestamp) col with
  | Some v =>
      exists e,
        fromtimestamp v = Err e /\
        for_each (fun timestamp_ time_unix =>
                    if is_zero time_unix then Ok (timestamp_ ++ [JNum 0])
                    else
                      a <- fromtimestamp time_unix ;;
                      Ok (timestamp_ ++ [JStr (strftime a)]))
          col acc = Err e
  | None =>
      exists out,
        for_each (fun timestamp_ time_unix =>
                    if is_zero time_unix then Ok (timestamp_ ++ [JNum 0])
                    else
                      a <- fromtimestamp time_unix ;;
                      Ok (timestamp_ ++ [JStr (strftime a)]))
          col acc = Ok (acc ++ out) /\
        List.length out = List.length col
  end.
Proof.
  revert acc; induction col as [|v col IH]; intros acc; simpl.
  - exists []. now rewrite app_nil_r.
  - unfold unconvertible at 1.
    destruct (is_zero v); simpl.
    + specialize (IH (acc ++ [JNum 0])).
      destruct (find _ col); [exact IH|].
      destruct IH as (out & -> & Hlen). exists (JNum 0 :: out).
      rewrite <- app_assoc. simpl. auto.
    + destruct (fromtimestamp v) as [a|e] eqn:Hv; simpl.
      * specialize (IH (acc ++ [JStr (strftime a)])).
        destruct (find _ col); [exact IH|].
        destruct IH as (out & -> & Hlen). exists (JStr (strftime a) :: out).
        rewrite <- app_assoc. simpl. auto.
      * exists e. auto.
Qed.

End FormatterOutcome.

(** X16: the three outcomes of the formatter.  It returns [None] when the
    frame has no such column; it returns a list of the column's length when
    [fromtimestamp] converts every non-zero value; and otherwise it raises
    what [fromtimestamp] raises on the first non-zero value it cannot
    convert, returning nothing for the values already formatted. *)
Theorem convert_2_timestamp_outcome (value : Type) (is_zero : value -> bool)
  (fromtimestamp : value -> result datetime) (column : string)
  (data : list (string * list value)) :
  match get_column column data with
  | None => convert_2_timestamp is_zero fromtimestamp column data = Ok None
  | Some col =>
      match find (unconvertible is_zero fromtimestamp) col with
      | Some v =>
          exists e,
            fromtimestamp v = Err e /\
            convert_2_timestamp is_zero fromtimestamp column data = Err e
      | None =>
          exists out,
            convert_2_timestamp is_zero fromtimestamp column data = Ok (Some out) /\
            List.length out = List.length col
      end
  end.
Proof.
  unfold convert_2_timestamp.
  destruct (get_column column data) as [col|] eqn:Hcol.
  - rewrite (get_column_exists _ _ _ _ Hcol). simpl.
    pose proof (format_loop_outcome value is_zero fromtimestamp col []) as H.
    destruct (find _ col).
    + destruct H as (e & He & ->). exists e. auto.
    + destruct H as (out & -> & Hlen). simpl. eauto.
  - now rewrite (get_column_absent _ _ _ Hcol).
Qed.

(** ** Properties of [get_tagged_users] *)

Lemma take_word_spec (s : string) :
  let (w, r) := take_word s in
  s = (w ++ r)%string /\ all_word w = true /\
  match r with
  | EmptyString => True
  | String c _ => is_word_char c = false
  end.
Proof.
  induction s as [|c s IH]; simpl; [auto|].
  destruct (is_word_char c) eqn:Hc.
  - destruct (take_word s) as [w r]. destruct IH as (-> & Hw & Hr).
    simpl. rewrite Hc. auto.
  - simpl. auto.
Qed.

Lemma match_tag_spec (s tag : string) :
  match_tag s = Some tag ->
  exists w r,
    tag = String "@" (String "U" w) /\ w <> EmptyString /\ all_word w = true /\
    s = (tag ++ r)%string /\
    match r with
    | EmptyString => True
    | String c _ => is_word_char c = false
    end.
Proof.
  unfold match_tag.
  destruct s as [|c1 [|c2 t]]; try discriminate;
    try (destruct c1 as [[] [] [] [] [] [] [] []]; discriminate).
  destruct (Ascii.eqb_spec c1 "@") as [->|H1].
  2:{ destruct c1 as [[] [] [] [] [] [] [] []]; try discriminate.
      now contradiction H1. }
  destruct (Ascii.eqb_spec c2 "U") as [->|H2].
  2:{ destruct c2 as [[] [] [] [] [] [] [] []]; try discriminate.
      now contradiction H2. }
  pose proof (take_word_spec t) as Ht.
  destruct (take_word t) as [[|c w] r]; [discriminate|].
  intros H; injection H as <-. destruct Ht as (-> & Hw & Hr).
  exists (String c w), r. repeat split; auto. discriminate.
Qed.

Lemma all_word_no_at (w rest : string) :
  all_word w = true -> no_at (String.length w) (w ++ rest).
Proof.
  induction w as [|c w IH]; simpl; [auto|].
  intros H. apply andb_prop in H as [Hc Hw]. split; [|auto].
  intros ->. discriminate.
Qed.

Lemma scan_tags_skip (s : string) (k : nat) :
  no_at k s -> scan_tags k s = scan_tags 0 s.
Proof.
  revert k; induction s as [|c s IH]; intros k; simpl; [now destruct k|].
  destruct k as [|k]; [reflexivity|]. simpl. intros [Hc Hk].
  rewrite (IH k Hk).
  destruct c as [[] [] [] [] [] [] [] []]; try reflexivity.
  now contradiction Hc.
Qed.

(** The search finds one tag for every position at which the pattern
    matches: a match never hides the start of another. *)
Lemma findall_tags_positions (s : string) :
  findall_tags s =
  flat_map (fun x => match match_tag x with
                     | Some tag => [tag]
                     | None => []
                     end) (suffixes s).
Proof.
  unfold findall_tags. induction s as [|c s IH]; [reflexivity|].
  cbn [scan_tags suffixes flat_map].
  destruct (match_tag (String c s)) as [tag|] eqn:Hm; [|exact IH].
  simpl. f_equal. rewrite <- IH. apply scan_tags_skip.
  apply match_tag_spec in Hm as (w & r & -> & _ & Hw & E & _).
  injection E as -> ->. simpl.
  split; [discriminate|]. now apply all_word_no_at.
Qed.

Lemma prefix_append (a b : string) : prefix a (a ++ b) = true.
Proof.
  induction a as [|c a IH]; simpl; [now destruct b|].
  destruct (ascii_dec c c); [exact IH | contradiction].
Qed.

Lemma is_substring_suffix (tag x s : string) :
  In x (suffixes s) -> prefix tag x = true -> is_substring tag s = true.
Proof.
  induction s as [|c s IH]; simpl; [tauto|].
  intros [<-|Hin] Hp.
  - simpl in Hp. rewrite Hp. reflexivity.
  - rewrite (IH Hin Hp). apply orb_true_r.
Qed.

(** X17: every tag the search returns for a text is ["@U"] followed by a
    non-empty run of word characters, and it occurs in the text. *)
Theorem findall_tags_shape (s tag : string) :
  In tag (findall_tags s) ->
  exists w,
    tag = String "@" (String "U" w) /\ w <> EmptyString /\
    all_word w = true /\ is_substring tag s = true.
Proof.
  rewrite findall_tags_positions. intros H.
  apply in_flat_map in H as (x & Hx & Hin).
  destruct (match_tag x) as [t|] eqn:Hm; [|contradiction].
  destruct Hin as [<-|[]].
  apply match_tag_spec in Hm as (w & r & -> & Hne & Hw & E & _).
  exists w. repeat split; auto.
  apply (is_substring_suffix _ x s Hx). rewrite E. apply prefix_append.
Qed.

Lemma findall_tags_shape_witness :
  exists w,
    "@U123" = String "@" (String "U" w) /\ w <> EmptyString /\
    all_word w = true /\ is_substring "@U123" "hi @U123, bye" = true.
Proof.
  apply (findall_tags_shape "hi @U123, bye" "@U123"). simpl. left. reflexivity.
Defined.

(** X18: the three outcomes of the tag extractor.  It raises [KeyError]
    on a frame without a ["msg_content"] column and [TypeError] when an
    entry of the column is not a text; otherwise it returns, entry by entry,
    the matches of the pattern at the positions of the text, one for every
    position at which the pattern matches. *)
Theorem get_tagged_users_outcome (df : list (string * list json)) :
  match frame_column "msg_content" df with
  | None => get_tagged_users df = Err (KeyError "msg_content")
  | Some col =>
      if forallb is_text col
      then get_tagged_users df = Ok (map tags_entry col)
      else get_tagged_users df = Err TypeError
  end.
Proof.
  unfold get_tagged_users.
  destruct (frame_column "msg_content" df) as [col|]; [|reflexivity].
  assert (H : forall acc,
            for_each (fun tags x =>
                        match x with
                        | JStr s => Ok (tags ++ [JList (map JStr (findall_tags s))])
                        | _ => Err TypeError
                        end) col acc =
            if forallb is_text col then Ok (acc ++ map tags_entry col)
            else Err TypeError).
  { induction col as [|x col IH]; intros acc; simpl.
    - now rewrite app_nil_r.
    - destruct x; simpl; try reflexivity.
      rewrite IH. destruct (forallb is_text col); [|reflexivity].
      unfold pattern_matches. now rewrite findall_tags_positions, <- app_assoc. }
  rewrite H. now destruct (forallb is_text col).
Qed.

(** ** Payloads, and the records the extractor accepts *)

Lemma classify_payload (a : walk_acc) (e : json) (a' : walk_acc) :
  classify a e = Ok a' -> has_payload e = true.
Proof.
  unfold classify, has_payload, lacks_field_of; intros H.
  destruct e as [| b | z | s | l | d]; simpl in H; try discriminate;
    try reflexivity.
  unfold has_key in H. simpl.
  destruct (assoc "type" d) as [ty|] eqn:Hty; simpl in H; [|reflexivity].
  destruct ty as [| b | z | s | l | d']; simpl in *; try reflexivity.
  destruct (String.eqb s "emoji"), (String.eqb s "user"), (String.eqb s "link");
    simpl in *;
    repeat match type of H with
           | context [assoc ?k d] => destruct (assoc k d); simpl in H; try discriminate
           end; reflexivity.
Qed.

Lemma for_each_forallb {S A : Type} (body : S -> A -> result S) (ok : A -> bool)
  (xs : list A) (s s' : S) :
  (forall s x s', body s x = Ok s' -> ok x = true) ->
  for_each body xs s = Ok s' -> forallb ok xs = true.
Proof.
  intros Hok. revert s; induction xs as [|x xs IH]; intros s H; simpl in *;
    [reflexivity|].
  bind_inv H. rewrite (Hok _ _ _ Hx). simpl. eauto.
Qed.

Lemma walk_element_payload (a : walk_acc) (elm : json) (a' : walk_acc) :
  walk_element a elm = Ok a' -> forallb has_payload (children elm) = true.
Proof.
  unfold walk_element; intros H. bind_inv H. destruct x.
  - bind_inv H. bind_inv H. rewrite (children_iter _ _ _ Hx Hx0 Hx1).
    apply (for_each_forallb classify has_payload _ _ _ classify_payload H).
  - now rewrite (children_absent _ Hx).
Qed.

Lemma forallb_flat_map {A B : Type} (ok : B -> bool) (f : A -> list B) (xs : list A) :
  forallb (fun x => forallb ok (f x)) xs = forallb ok (flat_map f xs).
Proof.
  induction xs as [|x xs IH]; simpl; [reflexivity|].
  now rewrite forallb_app, IH.
Qed.

Lemma walk_block_payload (a : walk_acc) (blk : json) (a' : walk_acc) :
  walk_block a blk = Ok a' ->
  forallb has_payload (flat_map children (children blk)) = true.
Proof.
  unfold walk_block; intros H. bind_inv H. destruct x.
  - bind_inv H. bind_inv H. rewrite (children_iter _ _ _ Hx Hx0 Hx1).
    rewrite <- forallb_flat_map.
    apply (for_each_forallb walk_element _ _ _ _ walk_element_payload H).
  - now rewrite (children_absent _ Hx).
Qed.

(** X19: in no row does a list of mentions, emojis or links hold the
    stand-in of a missing payload: when extraction succeeds, every
    sub-element of a kept message that is tagged ["emoji"], ["user"] or
    ["link"] has its ["name"], ["user_id"] or ["url"]. *)
Theorem get_messages_dict_payloads_present (msgs : list json) (t : msg_table)
  (m : json) :
  get_messages_dict msgs = Ok t -> In m (kept msgs) ->
  forallb has_payload (sub_elements m) = true.
Proof.
  intros H Hin. apply In_nth_error in Hin as (i & Hi).
  destruct (get_messages_dict_row _ _ _ _ H Hi) as (r & Hr & _).
  apply extract_row_inv in Hr as (d & -> & _ & _ & _ & _ & _ & _ & _ & Hb).
  unfold sub_elements, blocks_of; simpl.
  destruct (assoc "blocks" d) as [bs|]; simpl; [|reflexivity].
  destruct Hb as (blks & a & Hit & Hw & _). rewrite Hit; simpl.
  rewrite <- !forallb_flat_map.
  refine (for_each_forallb walk_block _ _ _ _ _ Hw).
  intros a0 blk a1 Hblk. rewrite forallb_flat_map.
  exact (walk_block_payload _ _ _ Hblk).
Qed.

Lemma get_messages_dict_payloads_present_witness :
  forallb has_payload (sub_elements sample_rich) = true.
Proof.
  apply (get_messages_dict_payloads_present sample_msgs sample_table sample_rich).
  - reflexivity.
  - simpl. left. reflexivity.
Defined.

(** X20: on a single record the extractor returns exactly when the record
    is a system message, or has text, sender and timestamp, has a reply
    list whenever it has both ["thread_ts"] and ["reply_users"], and has no
    blocks or blocks on which the walk returns. *)
Theorem get_messages_dict_returns_iff_extractable (d : list (string * json)) :
  (exists t, get_messages_dict [JDict d] = Ok t) <-> extractable d = true.
Proof.
  assert (Hok : forall (x : msg_table),
            (exists t, Ok x = Ok t) <-> true = true) by (split; eauto).
  assert (Herr : forall e,
            (exists t : msg_table, Err e = Ok t) <-> false = true)
    by (split; [intros (t & H) | intros H]; discriminate).
  unfold get_messages_dict; simpl. rewrite process_message_row; simpl.
  unfold extractable, walk_blocks, extract_row; simpl. unfold has_key.
  destruct (assoc "subtype" d); simpl; [apply Hok|].
  destruct (assoc "text" d); simpl; [|apply Herr].
  destruct (assoc "user" d); simpl; [|apply Herr].
  destruct (assoc "ts" d); simpl; [|apply Herr].
  destruct (assoc "reactions" d); simpl;
    (destruct (assoc "parent_user_id" d); simpl;
     (destruct (assoc "thread_ts" d); simpl;
      [ destruct (assoc "reply_users" d); simpl;
        [ destruct (assoc "replies" d); simpl; [|apply Herr] | ] | ];
      (destruct (assoc "blocks" d) as [bs|]; simpl; [|apply Hok];
       destruct (py_iter bs) as [blks|]; simpl; [|apply Herr];
       destruct (for_each walk_block blks walk_init); simpl;
       [apply Hok | apply Herr]))).
Qed.
